(** * pywebscraper: content extraction, image path derivation and asset rewriting

    A shallow embedding of [pywebscraper/utils.py], [pywebscraper/image.py] and
    [pywebscraper/scraper.py].  Python [str] values are Rocq strings (the UTF-8
    bytes of the text: the separators the code splits on are ASCII, and UTF-8
    is self-synchronising, so splitting and substring replacement agree with
    the code-point view).  Dictionaries are [gmap]s.  The network, the HTML
    parser and the file system are collaborators of the program and appear as
    explicit state ([World]) or as Section variables. *)

From Stdlib Require Import Ascii String List ZArith Lia.
From stdpp Require Import base option list gmap strings.

Local Open Scope string_scope.
Local Open Scope list_scope.

(** ** Python string primitives used by the sources *)

Module PyStr.

(** [c in s] for a one-character [c]. *)
Fixpoint occurs (c : ascii) (s : string) : bool :=
  match s with
  | EmptyString => false
  | String d s' => if Ascii.eqb d c then true else occurs c s'
  end.

(** [s.split(sep)] for a one-character separator: never the empty list. *)
Fixpoint split (sep : ascii) (s : string) : list string :=
  match s with
  | EmptyString => [EmptyString]
  | String c s' =>
      if Ascii.eqb c sep then EmptyString :: split sep s'
      else match split sep s' with
           | [] => [String c EmptyString]
           | seg :: segs => String c seg :: segs
           end
  end.

(** [sep.join(segs)]. *)
Fixpoint join (sep : string) (segs : list string) : string :=
  match segs with
  | [] => EmptyString
  | [seg] => seg
  | seg :: segs' => seg +:+ sep +:+ join sep segs'
  end.

(** [s.startswith(p)]. *)
Fixpoint startswith (p s : string) : bool :=
  match p, s with
  | EmptyString, _ => true
  | String _ _, EmptyString => false
  | String a p', String b s' => if Ascii.eqb a b then startswith p' s' else false
  end.

(** [s.endswith(c)] for a one-character [c]. *)
Fixpoint endswith_char (c : ascii) (s : string) : bool :=
  match s with
  | EmptyString => false
  | String d EmptyString => Ascii.eqb d c
  | String _ s' => endswith_char c s'
  end.

(** The scan of [s.replace(old, new)] for a non-empty [old]: left to right,
    non-overlapping; [skip] counts the characters of a match still to be
    passed over. *)
Fixpoint replace_scan (old new : string) (skip : nat) (s : string) : string :=
  match s with
  | EmptyString => EmptyString
  | String c s' =>
      match skip with
      | S k => replace_scan old new k s'
      | O =>
          if startswith old s
          then new +:+ replace_scan old new (String.length old - 1) s'
          else String c (replace_scan old new 0 s')
      end
  end.

(** For the empty [old], Python inserts [new] before every character and at
    the end. *)
Fixpoint interleave (new s : string) : string :=
  match s with
  | EmptyString => new
  | String c s' => new +:+ String c (interleave new s')
  end.

(** [s.replace(old, new)]. *)
Definition replace (s old new : string) : string :=
  match old with
  | EmptyString => interleave new s
  | String _ _ => replace_scan old new 0 s
  end.

(** Truthiness of a [str]: [bool(s)]. *)
Definition truthy (s : string) : bool :=
  match s with EmptyString => false | String _ _ => true end.

End PyStr.

(** ** [os.path] (POSIX flavour) *)

Module OsPath.

(** [posixpath.join(a, b)] for two components. *)
Definition join (a b : string) : string :=
  if PyStr.startswith "/" b then b
  else if negb (PyStr.truthy a) || PyStr.endswith_char "/" a then a +:+ b
  else a +:+ "/" +:+ b.

(** Text up to and including the last ['/'] of [p] ([p[:p.rfind('/')+1]]). *)
Fixpoint head_with_sep (p : string) : string :=
  match p with
  | EmptyString => EmptyString
  | String c p' =>
      if PyStr.occurs "/" p then String c (head_with_sep p') else EmptyString
  end.

(** [s.rstrip('/')]. *)
Fixpoint rstrip_sep (s : string) : string :=
  match s with
  | EmptyString => EmptyString
  | String c s' =>
      match rstrip_sep s' with
      | EmptyString => if Ascii.eqb c "/" then EmptyString else String c EmptyString
      | t => String c t
      end
  end.

(** [posixpath.dirname(p)]: the head, without trailing separators unless it
    consists of separators only. *)
Definition dirname (p : string) : string :=
  let head := head_with_sep p in
  match rstrip_sep head with
  | EmptyString => head
  | stripped => stripped
  end.

End OsPath.

(** ** Exceptions, the network and the file system *)

(** Why [validate_url] rejected a URL (the three [raise ValueError] sites of
    [utils.py]; the message text is not modelled). *)
Inductive url_error := UrlEmpty | UrlBadScheme | UrlUnreachable.

(** The exception classes that can leave the modelled functions. *)
Inductive exn :=
| ValueError (why : url_error)
| RequestException
| TypeError
| AttributeError
| OSError.

Inductive outcome (A : Type) :=
| Returns (a : A)
| Raises (e : exn).
Arguments Returns {A} a.
Arguments Raises {A} e.

(** What the transport answers to one request: it raises a
    [RequestException] of its own ([Unreachable]) or hands back a response. *)
Inductive reply :=
| Unreachable
| Response (status_code : Z) (body : string).

(** The network as the program sees it during one run. *)
Record Net := {
  net_head : string -> reply;
  net_get : string -> reply
}.

Inductive event :=
| EvHead (url : string)
| EvGet (url : string).

(** Files and directories are keyed by the path string as the program
    spells it; [trace] lists the network requests issued so far, oldest
    first. *)
Record World := {
  files : gmap string string;
  dirs : gset string;
  trace : list event
}.

Definition log (e : event) (w : World) : World :=
  {| files := files w; dirs := dirs w; trace := trace w ++ [e] |}.

(** Computations that read and change the world and may raise. *)
Definition M (A : Type) : Type := World -> outcome A * World.

Definition ret {A} (a : A) : M A := fun w => (Returns a, w).
Definition raise {A} (e : exn) : M A := fun w => (Raises e, w).
Definition bind {A B} (m : M A) (k : A -> M B) : M B :=
  fun w => match m w with
           | (Returns a, w') => k a w'
           | (Raises e, w') => (Raises e, w')
           end.

(** [try: body  except requests.exceptions.RequestException: handler]. *)
Definition try_except_request {A} (body handler : M A) : M A :=
  fun w => match body w with
           | (Raises RequestException, w') => handler w'
           | r => r
           end.

Notation "x <- m ;; k" := (bind m (fun x => k))
  (at level 100, m at next level, right associativity).
Notation "m ;;; k" := (bind m (fun _ => k))
  (at level 100, right associativity).

(** [for x in xs: ys.append(f(x))], stopping at the first exception. *)
Fixpoint mapM {A B} (f : A -> M B) (xs : list A) : M (list B) :=
  match xs with
  | [] => ret []
  | x :: xs' => y <- f x ;; ys <- mapM f xs' ;; ret (y :: ys)
  end.

Section Requests.
Variable net : Net.

(** [requests.head(url)] and [requests.get(url)]. *)
Definition requests_head (url : string) : M (Z * string) :=
  fun w => match net_head net url with
           | Unreachable => (Raises RequestException, log (EvHead url) w)
           | Response st b => (Returns (st, b), log (EvHead url) w)
           end.

Definition requests_get (url : string) : M (Z * string) :=
  fun w => match net_get net url with
           | Unreachable => (Raises RequestException, log (EvGet url) w)
           | Response st b => (Returns (st, b), log (EvGet url) w)
           end.

(** [response.raise_for_status()]: an [HTTPError] (a [RequestException])
    for the 4xx and 5xx codes. *)
Definition raise_for_status (response : Z * string) : M unit :=
  if (400 <=? fst response)%Z && (fst response <? 600)%Z
  then raise RequestException else ret tt.

(** *** utils.py *)

Definition validate_url (url : string) : M unit :=
  if negb (PyStr.truthy url) then raise (ValueError UrlEmpty)
  else if negb (PyStr.startswith "http://" url)
          && negb (PyStr.startswith "https://" url)
  then raise (ValueError UrlBadScheme)
  else try_except_request
         (response <- requests_head url ;; raise_for_status response)
         (raise (ValueError UrlUnreachable)).
End Requests.

(** *** File operations used by [ImageContent.save] *)

(** Every proper ancestor of [p] (the text before each ['/'] that follows
    at least one character), nearest last; [acc] is the text already read. *)
Fixpoint ancestors_from (acc p : string) : list string :=
  match p with
  | EmptyString => []
  | String c p' =>
      let here := if Ascii.eqb c "/" && PyStr.truthy acc then [acc] else [] in
      here ++ ancestors_from (acc +:+ String c EmptyString) p'
  end.

Definition is_file (w : World) (p : string) : bool :=
  bool_decide (is_Some (files w !! p)).
Definition is_dir (w : World) (p : string) : bool :=
  bool_decide (p ∈ dirs w).

(** [os.path.exists(p)]; the empty path never exists. *)
Definition path_exists (w : World) (p : string) : bool :=
  PyStr.truthy p && (is_dir w p || is_file w p).

(** [os.makedirs(p, exist_ok=True)]. *)
Definition makedirs (p : string) : M unit :=
  fun w =>
    if negb (PyStr.truthy p) then (Raises OSError, w)
    else if existsb (is_file w) (ancestors_from "" p ++ [p]) then (Raises OSError, w)
    else (Returns tt,
          {| files := files w;
             dirs := dirs w ∪ list_to_set (ancestors_from "" p ++ [p]);
             trace := trace w |}).

(** [open(p, "wb")]: creates or truncates the file. *)
Definition open_wb (p : string) : M unit :=
  fun w =>
    if negb (PyStr.truthy p) || PyStr.endswith_char "/" p || is_dir w p
    then (Raises OSError, w)
    else if PyStr.truthy (OsPath.dirname p) && negb (is_dir w (OsPath.dirname p))
    then (Raises OSError, w)
    else (Returns tt,
          {| files := <[p := EmptyString]> (files w);
             dirs := dirs w; trace := trace w |}).

(** [f.write(data)] on a file opened in binary mode: [None] is not
    bytes-like. *)
Definition file_write (p : string) (data : option string) : M unit :=
  fun w =>
    match data with
    | None => (Raises TypeError, w)
    | Some bytes =>
        (Returns tt,
         {| files := <[p := bytes]> (files w); dirs := dirs w; trace := trace w |})
    end.

(** ** image.py *)

Record ImageContent := {
  url : string;
  alt_text : string;
  local_path : option string
}.

(** The test [image.local_path] of a conditional: [None] and the empty
    string are falsy. *)
Definition has_local_path (image : ImageContent) : bool :=
  match local_path image with
  | None => false
  | Some p => PyStr.truthy p
  end.

(** [self.url.split("/")[-1].split("?")[0]] *)
Definition get_filename (image : ImageContent) : string :=
  default EmptyString
    (head (PyStr.split "?"
             (default EmptyString (last (PyStr.split "/" (url image)))))).

(** ["/".join(self.url.split("/")[3:]).split("?")[0]] *)
Definition get_filepath (image : ImageContent) : string :=
  default EmptyString
    (head (PyStr.split "?"
             (PyStr.join "/" (drop 3 (PyStr.split "/" (url image)))))).

Section Image.
Variable net : Net.

(** The dataclass constructor followed by [__post_init__]. *)
Definition ImageContent_init (url alt_text : string) : M ImageContent :=
  validate_url net url ;;;
  ret {| url := url; alt_text := alt_text; local_path := None |}.

(** [_download]: the response body, or [None] after a transport error
    (which is printed, not raised). *)
Definition _download (image : ImageContent) : M (option string) :=
  try_except_request
    (response <- requests_get net (url image) ;;
     raise_for_status response ;;;
     ret (Some (snd response)))
    (ret None).

(** [save]: the path written to, with the image as the assignment to
    [self.local_path] leaves it. *)
Definition save (image : ImageContent) (path : string) (use_subdirectories : bool)
  : M (string * ImageContent) :=
  let filename :=
    if use_subdirectories then get_filepath image else get_filename image in
  let full_path := OsPath.join path filename in
  let base_path := OsPath.dirname full_path in
  (fun w => if negb (path_exists w base_path) then makedirs base_path w
            else ret tt w) ;;;
  image_content <- _download image ;;
  open_wb full_path ;;;
  file_write full_path image_content ;;;
  ret (full_path,
       {| url := url image; alt_text := alt_text image;
          local_path := Some full_path |}).
End Image.

(** ** The parsed document (BeautifulSoup with html.parser) *)

(** An element keeps its single-valued attributes in a dictionary; the
    multi-valued [class] attribute is a list of tokens, absent when the
    element has none. *)
#[warnings="-register-all"]
Inductive node :=
| Tag (name : string) (attrs : gmap string string)
      (class_ : option (list string)) (contents : list node)
| NavigableString (text : string).

(** [tag.descendants]: every node below, in document order. *)
Fixpoint descendants_of (n : node) : list node :=
  match n with
  | Tag _ _ _ cs => flat_map (fun c => c :: descendants_of c) cs
  | NavigableString _ => []
  end.

(** The document object holds the top-level nodes. *)
Definition descendants (soup : list node) : list node :=
  flat_map (fun c => c :: descendants_of c) soup.

Definition has_name (nm : string) (n : node) : bool :=
  match n with
  | Tag nm' _ _ _ => String.eqb nm' nm
  | NavigableString _ => false
  end.

(** How a search for [{"class": v}] matches a multi-valued attribute: some
    token equals [v], or the tokens joined by spaces do. *)
Definition class_matches (v : string) (n : node) : bool :=
  match n with
  | Tag _ _ (Some toks) _ =>
      existsb (String.eqb v) toks || String.eqb (PyStr.join " " toks) v
  | _ => false
  end.

(** The generator behind [find]: stop at the first match. *)
Fixpoint first_match (p : node -> bool) (l : list node) : option node :=
  match l with
  | [] => None
  | n :: l' => if p n then Some n else first_match p l'
  end.

(** [soup.find(name)], [soup.find(name, {"class": v})], [soup.find_all(name)]. *)
Definition find (nm : string) (soup : list node) : option node :=
  first_match (has_name nm) (descendants soup).
Definition find_class (nm v : string) (soup : list node) : option node :=
  first_match (fun n => has_name nm n && class_matches v n) (descendants soup).
Definition find_all (nm : string) (soup : list node) : list node :=
  filter (fun n => has_name nm n = true) (descendants soup).

(** [tag.get(key)]: the attribute, or [None] when the element has none of
    that name (the program asks elements only). *)
Definition get (n : node) (key : string) : option string :=
  match n with
  | Tag _ attrs _ _ => attrs !! key
  | NavigableString _ => None
  end.

(** [a or b] on results of [find]: a tag is always truthy. *)
Definition or_else {A} (a b : option A) : option A :=
  match a with Some _ => a | None => b end.

(** ** scraper.py *)

Record PyWebScraper := {
  scraper_url : string;
  _soup : list node;
  _content : option node;
  _images : option (list ImageContent)
}.

Definition set_content (self : PyWebScraper) (c : option node) : PyWebScraper :=
  {| scraper_url := scraper_url self; _soup := _soup self;
     _content := c; _images := _images self |}.
Definition set_images (self : PyWebScraper) (l : list ImageContent) : PyWebScraper :=
  {| scraper_url := scraper_url self; _soup := _soup self;
     _content := _content self; _images := Some l |}.

(** [extract_content]: the object after the assignment to [self._content],
    and the returned value ([None] when nothing was found). *)
Definition extract_content (self : PyWebScraper) : PyWebScraper * option node :=
  let soup := _soup self in
  let content :=
    or_else (find "article" soup)
      (or_else (find_class "div" "content" soup) (find "body" soup)) in
  let chosen := match content with Some _ => content | None => find "body" soup end in
  (set_content self chosen, chosen).

(** One turn of the loop of [extract_images]. *)
Definition extract_images_step (images : list (string * string)) (img : node)
  : list (string * string) :=
  let img_url := get img "src" in
  let alt := default "Image" (get img "alt") in
  match img_url with
  | Some u => if PyStr.truthy u then images ++ [(alt, u)] else images
  | None => images
  end.

Definition extract_images (self : PyWebScraper) : list (string * string) :=
  fold_left extract_images_step (find_all "img" (_soup self)) [].

Section Scraper.
Variable net : Net.
(** [BeautifulSoup(html, "html.parser")], applied to what [_fetch_html]
    returned (the text, or [None] after a failed fetch). *)
Variable html_parser : option string -> outcome (list node).

(** [_fetch_html]: the page text, or [None] after a transport error. *)
Definition _fetch_html (page_url : string) : M (option string) :=
  try_except_request
    (response <- requests_get net page_url ;;
     raise_for_status response ;;;
     ret (Some (snd response)))
    (ret None).

(** [PyWebScraper.__init__] *)
Definition PyWebScraper_init (page_url : string) : M PyWebScraper :=
  validate_url net page_url ;;;
  html <- _fetch_html page_url ;;
  soup <- (fun w => (html_parser html, w)) ;;
  ret {| scraper_url := page_url; _soup := soup;
         _content := None; _images := None |}.

(** [get_images]: the cached list, or one [ImageContent] per discovered
    pair; the cache is assigned only when every constructor returned. *)
Definition get_images (self : PyWebScraper) : M (PyWebScraper * list ImageContent) :=
  match _images self with
  | Some images => ret (self, images)
  | None =>
      images <- mapM (fun '(alt, u) => ImageContent_init net u alt)
                     (extract_images self) ;;
      ret (set_images self images, images)
  end.

(** The loop of [_process_images] over the image objects: the outcome, the
    objects as the loop leaves them, and the world. *)
Fixpoint process_loop (path save_path : string) (flatten_images : bool)
    (images : list ImageContent) (content : string) (w : World)
  : outcome string * list ImageContent * World :=
  match images with
  | [] => (Returns content, [], w)
  | image :: rest =>
      let saved :=
        if negb (has_local_path image)
        then save net image save_path (negb flatten_images) w
        else (Returns (EmptyString, image), w) in
      match saved with
      | (Raises e, w') => (Raises e, image :: rest, w')
      | (Returns (_, image'), w') =>
          match local_path image' with
          | None => (Raises AttributeError, image' :: rest, w')
          | Some lp =>
              let content' :=
                PyStr.replace content (url image') (PyStr.replace lp path EmptyString) in
              let '(r, rest', w'') :=
                process_loop path save_path flatten_images rest content' w' in
              (r, image' :: rest', w'')
          end
      end
  end.

(** [_process_images] *)
Definition _process_images (self : PyWebScraper) (content path images_dir_name : string)
    (flatten_images : bool) (w : World)
  : outcome string * PyWebScraper * World :=
  let save_path := OsPath.join path images_dir_name in
  match get_images self w with
  | (Raises e, w') => (Raises e, self, w')
  | (Returns (self', images), w') =>
      let '(r, images', w'') :=
        process_loop path save_path flatten_images images content w' in
      (r, set_images self' images', w'')
  end.
End Scraper.

(** ** The claims as the specification words them, for comparison *)

(** The local path with the output directory removed from its front only. *)
Definition strip_front (base p : string) : string :=
  if PyStr.startswith base p
  then String.substring (String.length base) (String.length p - String.length base) p
  else p.

(** Region selection where rule 2 accepts any element carrying the class
    token. *)
Definition select_region_any_tag (soup : list node) : option node :=
  or_else (find "article" soup)
    (or_else (first_match (class_matches "content") (descendants soup))
       (find "body" soup)).

(** One pair per [img] element that has a source attribute, whatever its
    value. *)
Definition image_references_with_src (soup : list node) : list (string * string) :=
  omap (fun img => u ← get img "src"; Some (default "Image" (get img "alt"), u))
       (find_all "img" soup).

(** What the code keeps: the source attribute must also be non-empty. *)
Definition image_reference (img : node) : option (string * string) :=
  match get img "src" with
  | Some u => if PyStr.truthy u then Some (default "Image" (get img "alt"), u) else None
  | None => None
  end.


(** The reachability probe of [validate_url] fails: the transport raises, or
    the status is one [raise_for_status] rejects. *)
Definition probe_fails (net : Net) (u : string) : bool :=
  match net_head net u with
  | Unreachable => true
  | Response st _ => (400 <=? st)%Z && (st <? 600)%Z
  end.

(** The three cases in which a URL is invalid. *)
Definition invalid_url (net : Net) (u : string) : Prop :=
  u = ""
  \/ (PyStr.startswith "http://" u = false /\ PyStr.startswith "https://" u = false)
  \/ probe_fails net u = true.

Definition is_probe (e : event) : bool :=
  match e with EvHead _ => true | EvGet _ => false end.

(** From [w] to [w'] nothing happened but reachability probes. *)
Definition only_probes (w w' : World) : Prop :=
  files w' = files w /\ dirs w' = dirs w
  /\ exists l, trace w' = trace w ++ l /\ Forall (fun e => is_probe e = true) l.

(** ** Concrete worlds for the examples *)

Definition empty_world : World := {| files := ∅; dirs := ∅; trace := [] |}.

(** Every request is answered with status 200 and the body ["DATA"]. *)
Definition net_all_ok : Net :=
  {| net_head := fun _ => Response 200 ""; net_get := fun _ => Response 200 "DATA" |}.

(** A parser that finds no node in any input. *)
Definition parse_nothing (html : option string) : outcome (list node) := Returns [].

(** A scraper object as [__init__] leaves it, for a parsed document. *)
Definition mk_page (soup : list node) : PyWebScraper :=
  {| scraper_url := "https://x.com/"; _soup := soup;
     _content := None; _images := None |}.

Definition img_tag (attrs : gmap string string) : node := Tag "img" attrs None [].

(** Three documents, one per selection rule, and two more. *)
Definition article_node : node :=
  Tag "article" ∅ None [NavigableString "story"].
Definition content_div : node :=
  Tag "div" ∅ (Some ["main"; "content"]) [NavigableString "text"].
Definition content_section : node :=
  Tag "section" ∅ (Some ["content"]) [NavigableString "text"].

Definition page_with_article : PyWebScraper :=
  mk_page [Tag "html" ∅ None
             [Tag "body" ∅ None [content_div; article_node]]].
Definition page_with_content_div : PyWebScraper :=
  mk_page [Tag "html" ∅ None
             [Tag "body" ∅ None [Tag "nav" ∅ None []; content_div]]].
Definition body_with_section : node :=
  Tag "body" ∅ None [Tag "nav" ∅ None []; content_section].
Definition page_with_content_section : PyWebScraper :=
  mk_page [Tag "html" ∅ None [body_with_section]].
Definition page_fragment : PyWebScraper :=
  mk_page [Tag "p" ∅ None [NavigableString "hello"]].

(** [x] is the first element of [l] that satisfies [p]. *)
Definition first_in (p : node -> bool) (l : list node) (x : node) : Prop :=
  exists before after,
    l = before ++ x :: after /\ p x = true /\ Forall (fun y => p y = false) before.

(** No element of [l] satisfies [p]. *)
Definition none_in (p : node -> bool) (l : list node) : Prop :=
  Forall (fun y => p y = false) l.

(** Rule 2 as the code has it: a [div] whose class matches ["content"]. *)
Definition is_content_div (n : node) : bool :=
  has_name "div" n && class_matches "content" n.

(** A page whose images lie outside the selected region, one of them with
    an empty source, one without source, and a URL that occurs twice. *)
Definition page_with_images : PyWebScraper :=
  mk_page [Tag "html" ∅ None
             [Tag "body" ∅ None
                [img_tag {[ "src" := "https://x.com/logo.png" ]};
                 Tag "article" ∅ None
                   [img_tag {[ "src" := "https://x.com/a.png"; "alt" := "A" ]};
                    img_tag {[ "alt" := "no source" ]};
                    img_tag {[ "src" := "https://x.com/a.png"; "alt" := "" ]}]]]].

Definition page_with_empty_src : PyWebScraper :=
  mk_page [Tag "body" ∅ None [img_tag {[ "src" := "" ]}]].

(** The substitutions of [_process_images] alone, for images that all have
    a local path. *)
Definition rewrite_all (path : string) (images : list ImageContent) (content : string)
  : string :=
  fold_left
    (fun c image =>
       PyStr.replace c (url image)
         (PyStr.replace (default "" (local_path image)) path ""))
    images content.

(** The GET for [u] raises or is answered with a rejected status. *)
Definition download_fails (net : Net) (u : string) : bool :=
  match net_get net u with
  | Unreachable => true
  | Response st _ => (400 <=? st)%Z && (st <? 600)%Z
  end.

(** A network on which the download of [https://x.com/a.png] fails. *)
Definition net_a_down : Net :=
  {| net_head := fun _ => Response 200 "";
     net_get := fun u => if String.eqb u "https://x.com/a.png"
                         then Unreachable else Response 200 "DATA" |}.

Definition page_two_images : PyWebScraper :=
  mk_page [Tag "body" ∅ None
             [img_tag {[ "src" := "https://x.com/a.png"; "alt" := "A" ]};
              img_tag {[ "src" := "https://x.com/b.png"; "alt" := "B" ]}]].

(** An image whose URL path contains the name of the output directory. *)
Definition page_output_img : PyWebScraper :=
  mk_page [Tag "article" ∅ None
             [img_tag {[ "src" := "https://x.com/output/a.png"; "alt" := "A" ]}]].

Definition page_one_img : PyWebScraper :=
  mk_page [Tag "article" ∅ None
             [img_tag {[ "src" := "https://x.com/a/b.png?s=1"; "alt" := "A" ]}]].

(** A scraper whose images have all been saved by an earlier call. *)
Definition page_saved : PyWebScraper :=
  {| scraper_url := "https://x.com/"; _soup := _soup page_one_img;
     _content := None;
     _images := Some [ {| url := "https://x.com/a/b.png?s=1"; alt_text := "A";
                          local_path := Some "out/images/a/b.png" |} ] |}.

(** ** The remaining functions of utils.py and scraper.py *)

(** [open(p, "w", encoding="utf-8")] creates or truncates as the binary mode
    does; the text written is stored as its UTF-8 bytes. *)
Definition open_text (p : string) : M unit := open_wb p.

(** [write_to_file] *)
Definition write_to_file (content path filename : string) : M string :=
  let filepath := OsPath.join path filename in
  open_text filepath ;;;
  file_write filepath (Some content) ;;;
  ret filepath.

(** The name under which the entry [k] appears in the directory whose
    entries are spelled [prefix ++ name]: [None] when [k] is not directly in
    it. *)
Definition entry_name (prefix k : string) : option string :=
  if PyStr.startswith prefix k then
    let name := String.substring (String.length prefix)
                  (String.length k - String.length prefix) k in
    if PyStr.truthy name && negb (PyStr.occurs "/" name) then Some name else None
  else None.

(** [os.listdir(p)]: the names of the files and directories directly in
    [p], an error when [p] is not a directory. *)
Definition listdir (p : string) : M (list string) :=
  fun w =>
    if PyStr.truthy p && is_dir w p
    then (Returns (omap (entry_name (OsPath.join p ""))
                     (elements (dom (files w) ∪ dirs w))), w)
    else (Raises OSError, w).

(** [os.unlink(p)] on a path known to be a file. *)
Definition unlink (p : string) : M unit :=
  fun w => (Returns tt,
            {| files := delete p (files w); dirs := dirs w; trace := trace w |}).

(** [k] is [p] or lies below it. *)
Definition at_or_below (p k : string) : bool :=
  String.eqb k p || PyStr.startswith (p +:+ "/") k.

(** [shutil.rmtree(p)] on a path known to be a directory: the directory and
    everything below it go. *)
Definition rmtree (p : string) : M unit :=
  fun w => (Returns tt,
            {| files := filter (fun kv => at_or_below p (fst kv) = false) (files w);
               dirs := filter (fun k => at_or_below p k = false) (dirs w);
               trace := trace w |}).

(** One turn of the loop of [clear_directory_content]. *)
Definition clear_entry (path file : string) : M unit :=
  fun w =>
    let file_path := OsPath.join path file in
    if is_file w file_path then unlink file_path w
    else if is_dir w file_path then rmtree file_path w
    else (Returns tt, w).

(** [for x in xs: f(x)], stopping at the first exception. *)
Fixpoint forM_ {A} (f : A -> M unit) (xs : list A) : M unit :=
  match xs with
  | [] => ret tt
  | x :: xs' => f x ;;; forM_ f xs'
  end.

(** [clear_directory_content] *)
Definition clear_directory_content (path : string) : M unit :=
  names <- listdir path ;;
  forM_ (clear_entry path) names.

(** [old in s]: [old] occurs somewhere in [s]. *)
Fixpoint contains (old s : string) : bool :=
  match s with
  | EmptyString => PyStr.startswith old EmptyString
  | String _ s' => PyStr.startswith old s || contains old s'
  end.

Section Rendering.
Variable net : Net.
(** [str(tag)], the serialisation of an element, and
    [markdownify(html, heading_style=...)]. *)
Variable decode : node -> string.
Variable markdownify : string -> string -> string.

(** [str(content)] for what [extract_content] returned. *)
Definition py_str (content : option node) : string :=
  match content with
  | Some n => decode n
  | None => "None"
  end.

(** [get_content_html] *)
Definition get_content_html (self : PyWebScraper) : PyWebScraper * string :=
  let '(self', content) := extract_content self in
  (self', py_str content).

(** [get_content_markdown] *)
Definition get_content_markdown (self : PyWebScraper) (heading_style : string)
  : PyWebScraper * string :=
  let '(self', content) := extract_content self in
  (self', markdownify (py_str content) heading_style).

(** The loop of [save_images]: every image is saved, with subdirectories,
    whether or not it has a local path already. *)
Fixpoint save_loop (path : string) (images : list ImageContent) (w : World)
  : outcome unit * list ImageContent * World :=
  match images with
  | [] => (Returns tt, [], w)
  | image :: rest =>
      match save net image path true w with
      | (Raises e, w') => (Raises e, image :: rest, w')
      | (Returns (_, image'), w') =>
          let '(r, rest', w'') := save_loop path rest w' in
          (r, image' :: rest', w'')
      end
  end.

(** [save_images] *)
Definition save_images (self : PyWebScraper) (path : string) (w : World)
  : outcome unit * PyWebScraper * World :=
  match get_images net self w with
  | (Raises e, w') => (Raises e, self, w')
  | (Returns (self', images), w') =>
      let '(r, images', w'') := save_loop path images w' in
      (r, set_images self' images', w'')
  end.

(** The common body of [save_markdown] and [save_content_html], after the
    content has been rendered. *)
Definition save_rendered (rendered : PyWebScraper * string)
    (path filename : string) (download_images : bool) (images_dir_name : string)
    (flatten_images : bool) (w : World)
  : outcome unit * PyWebScraper * World :=
  let '(self, content) := rendered in
  let '(r, self', w') :=
    if download_images
    then _process_images net self content path images_dir_name flatten_images w
    else (Returns content, self, w) in
  match r with
  | Raises e => (Raises e, self', w')
  | Returns content' =>
      match write_to_file content' path filename w' with
      | (Raises e, w'') => (Raises e, self', w'')
      | (Returns _, w'') => (Returns tt, self', w'')
      end
  end.

(** [save_markdown] *)
Definition save_markdown (self : PyWebScraper) (path filename : string)
    (download_images : bool) (images_dir_name : string)
    (clear_output_dir flatten_images : bool) (w : World)
  : outcome unit * PyWebScraper * World :=
  match (if clear_output_dir then clear_directory_content path w
         else (Returns tt, w)) with
  | (Raises e, w') => (Raises e, self, w')
  | (Returns _, w') =>
      save_rendered (get_content_markdown self "ATX") path filename
        download_images images_dir_name flatten_images w'
  end.

(** [save_content_html] *)
Definition save_content_html (self : PyWebScraper) (path filename : string)
    (download_images : bool) (images_dir_name : string)
    (clear_output_dir flatten_images : bool) (w : World)
  : outcome unit * PyWebScraper * World :=
  match (if clear_output_dir then clear_directory_content path w
         else (Returns tt, w)) with
  | (Raises e, w') => (Raises e, self, w')
  | (Returns _, w') =>
      save_rendered (get_content_html self) path filename
        download_images images_dir_name flatten_images w'
  end.
End Rendering.

(** [k] is spelled [prefix] followed by at least one character. *)
Definition strictly_inside (prefix k : string) : bool :=
  PyStr.startswith prefix k && Nat.ltb (String.length prefix) (String.length k).

(** From [w] to [w'] entries have only been removed, all of them strictly
    inside [prefix], and a directory that went took everything at or below
    it along; no request was sent. *)
Definition only_removed_inside (prefix : string) (w w' : World) : Prop :=
  trace w' = trace w
  /\ (forall k v, files w' !! k = Some v -> files w !! k = Some v)
  /\ (forall k, k ∈ dirs w' -> k ∈ dirs w)
  /\ (forall k, strictly_inside prefix k = false ->
                files w' !! k = files w !! k /\ (k ∈ dirs w -> k ∈ dirs w'))
  /\ (forall k, k ∈ dirs w -> k ∉ dirs w' ->
                forall k', at_or_below k k' = true ->
                           files w' !! k' = None /\ k' ∉ dirs w').

(** The file name as the specification words it: the query is removed,
    whatever it holds, and the final path segment of what is left is
    taken. *)
Definition final_path_segment (u : string) : string :=
  default EmptyString
    (last (PyStr.split "/" (default EmptyString (head (PyStr.split "?" u))))).

(** The probe as the specification words it: it fails, or its status is
    not a success (2xx) status. *)
Definition probe_not_successful (net : Net) (u : string) : bool :=
  match net_head net u with
  | Unreachable => true
  | Response st _ => negb ((200 <=? st)%Z && (st <? 300)%Z)
  end.

Definition invalid_url_as_claimed (net : Net) (u : string) : Prop :=
  u = ""
  \/ (PyStr.startswith "http://" u = false /\ PyStr.startswith "https://" u = false)
  \/ probe_not_successful net u = true.

(** A network that answers every HEAD with a redirect (status 301), which
    [requests.head] hands back as it is. *)
Definition net_redirect : Net :=
  {| net_head := fun _ => Response 301 ""; net_get := fun _ => Response 200 "DATA" |}.

(** An image whose query holds a ['/']. *)
Definition image_slash_in_query : ImageContent :=
  {| url := "https://x.com/a/img.jpg?next=/home"; alt_text := "A";
     local_path := None |}.

(** ** Properties of the string primitives *)

Lemma string_app_nil_l (b : string) : "" +:+ b = b.
Proof. reflexivity. Qed.

Lemma string_app_cons (x : ascii) (a b : string) :
  String x a +:+ b = String x (a +:+ b).
Proof. reflexivity. Qed.

Lemma string_app_assoc (a b c : string) : (a +:+ b) +:+ c = a +:+ (b +:+ c).
Proof.
  induction a as [|x a IH]; [reflexivity |].
  rewrite !string_app_cons. now rewrite IH.
Qed.

Lemma string_app_nil_r (a : string) : a +:+ "" = a.
Proof.
  induction a as [|x a IH]; [reflexivity |].
  rewrite string_app_cons. now rewrite IH.
Qed.

Lemma split_nonempty (c : ascii) (s : string) : PyStr.split c s <> [].
Proof.
  destruct s as [|a s]; simpl; [discriminate |].
  destruct (Ascii.eqb a c); [discriminate |].
  destruct (PyStr.split c s); discriminate.
Qed.

Lemma join_cons_char (sep : string) (a : ascii) (seg : string) (segs : list string) :
  PyStr.join sep (String a seg :: segs) = String a (PyStr.join sep (seg :: segs)).
Proof. destruct segs; reflexivity. Qed.

(** Joining the segments with the separator gives the string back. *)
Lemma join_split (c : ascii) (s : string) :
  PyStr.join (String c "") (PyStr.split c s) = s.
Proof.
  induction s as [|a s IH]; [reflexivity |].
  pose proof (split_nonempty c s) as Hs.
  simpl. destruct (PyStr.split c s) as [|seg segs] eqn:E; [contradiction |].
  destruct (Ascii.eqb_spec a c) as [->|Hne].
  - change (PyStr.join (String c "") ("" :: seg :: segs))
      with (String c (PyStr.join (String c "") (seg :: segs))).
    now rewrite IH.
  - rewrite join_cons_char. now rewrite IH.
Qed.

(** No segment contains the separator. *)
Lemma split_segments_free (c : ascii) (s : string) :
  Forall (fun seg => PyStr.occurs c seg = false) (PyStr.split c s).
Proof.
  induction s as [|a s IH]; simpl.
  - constructor; [reflexivity | constructor].
  - destruct (Ascii.eqb a c) eqn:E.
    + constructor; [reflexivity | exact IH].
    + destruct (PyStr.split c s) as [|seg segs]; constructor.
      * simpl. now rewrite E.
      * constructor.
      * simpl. rewrite E. now inversion IH.
      * now inversion IH.
Qed.

(** Splitting a separator-free text followed by the separator. *)
Lemma split_app_sep (c : ascii) (a b : string) :
  PyStr.occurs c a = false ->
  PyStr.split c (a +:+ String c b) = a :: PyStr.split c b.
Proof.
  induction a as [|x a IH]; simpl; intros H.
  - now rewrite Ascii.eqb_refl.
  - destruct (Ascii.eqb x c); [discriminate |]. now rewrite IH.
Qed.

Lemma join_snoc (sep : string) (l : list string) (x : string) :
  l <> [] -> PyStr.join sep (l ++ [x]) = PyStr.join sep l +:+ sep +:+ x.
Proof.
  induction l as [|y l IH]; [contradiction |]. intros _.
  destruct l as [|z l].
  - reflexivity.
  - change (PyStr.join sep ((y :: z :: l) ++ [x]))
      with (y +:+ sep +:+ PyStr.join sep ((z :: l) ++ [x])).
    rewrite IH by discriminate.
    change (PyStr.join sep (y :: z :: l)) with (y +:+ sep +:+ PyStr.join sep (z :: l)).
    now rewrite !string_app_assoc.
Qed.

Lemma endswith_char_snoc (c : ascii) (p : string) :
  PyStr.endswith_char c (p +:+ String c "") = true.
Proof.
  induction p as [|x p IH]; simpl.
  - apply Ascii.eqb_refl.
  - destruct (p +:+ String c "") eqn:E; [now destruct p | exact IH].
Qed.

(** The last segment of a split: the text after the last separator. *)
Lemma split_last (c : ascii) (s : string) :
  exists pre seg,
    last (PyStr.split c s) = Some seg
    /\ s = pre +:+ seg
    /\ (pre = "" \/ PyStr.endswith_char c pre = true)
    /\ PyStr.occurs c seg = false.
Proof.
  pose proof (split_nonempty c s) as Hne.
  pose proof (join_split c s) as Hj.
  pose proof (split_segments_free c s) as Hf.
  destruct (PyStr.split c s) as [|x l] using rev_ind; [contradiction |].
  clear IHl Hne. exists (match l with [] => "" | _ => PyStr.join (String c "") l +:+ String c "" end), x.
  split; [apply last_snoc |].
  apply Forall_app in Hf as [_ Hx]. inversion Hx; subst.
  destruct l as [|y l].
  - simpl in *. repeat split; auto.
  - rewrite join_snoc in * by discriminate.
    repeat split; auto.
    + now rewrite string_app_assoc.
    + right. apply endswith_char_snoc.
Qed.

(** The first segment of a split: the text before the first separator. *)
Lemma split_head (c : ascii) (s : string) :
  exists h rest,
    head (PyStr.split c s) = Some h
    /\ s = h +:+ rest
    /\ PyStr.occurs c h = false
    /\ (rest = "" \/ PyStr.startswith (String c "") rest = true).
Proof.
  pose proof (split_nonempty c s) as Hne.
  pose proof (join_split c s) as Hj.
  pose proof (split_segments_free c s) as Hf.
  destruct (PyStr.split c s) as [|h l]; [contradiction |].
  inversion Hf; subst.
  destruct l as [|y l].
  - exists h, "". simpl. rewrite string_app_nil_r. auto.
  - exists h, (String c "" +:+ PyStr.join (String c "") (y :: l)).
    repeat split; auto. right. simpl. now rewrite Ascii.eqb_refl.
Qed.


(** ** image.py: file names derived from the URL *)

(** What [get_filename] computes for every URL: the text after the last
    ['/'] of the whole string, cut at its first ['?'].  The URL is
    [pre ++ seg] where [pre] is empty or ends in ['/'] and [seg] has no
    ['/'], and [seg] is the result followed by nothing or by a suffix that
    starts with ['?']; the result itself has no ['?']. *)
Lemma get_filename_final_segment (image : ImageContent) :
  exists pre seg query,
    url image = pre +:+ seg
    /\ (pre = "" \/ PyStr.endswith_char "/" pre = true)
    /\ PyStr.occurs "/" seg = false
    /\ seg = get_filename image +:+ query
    /\ PyStr.occurs "?" (get_filename image) = false
    /\ (query = "" \/ PyStr.startswith "?" query = true).
Proof.
  unfold get_filename.
  destruct (split_last "/" (url image)) as (pre & seg & Hl & Hu & Hp & Hs).
  destruct (split_head "?" seg) as (h & q & Hh & Hq & Hno & Hst).
  exists pre, seg, q. rewrite Hl. simpl. rewrite Hh. simpl. auto 10.
Qed.


Example get_filename_docstring :
  get_filename {| url := "https://example.com/image.jpg"; alt_text := "";
                  local_path := None |} = "image.jpg"
  /\ get_filename {| url := "https://example.com/path/to/image.jpg"; alt_text := "";
                     local_path := None |} = "image.jpg"
  /\ get_filename {| url := "https://example.com/many/dir/path/to/image.jpg?size=large";
                     alt_text := ""; local_path := None |} = "image.jpg".
Proof. repeat split; reflexivity. Qed.

(** C5 at a failing input: the URL is split at ['/'] before the query is
    cut off, so a ['/'] inside the query moves the "last segment" into the
    query.  For [https://x.com/a/img.jpg?next=/home] the final path segment
    without query is [img.jpg], and [get_filepath] does return [a/img.jpg],
    but [get_filename] returns [home], and in flat mode [save] stores the
    image under that name. *)
Theorem get_filename_returns_query_piece :
  final_path_segment (url image_slash_in_query) = "img.jpg"
  /\ get_filepath image_slash_in_query = "a/img.jpg"
  /\ get_filename image_slash_in_query = "home"
  /\ get_filename image_slash_in_query <> final_path_segment (url image_slash_in_query)
  /\ fst (save net_all_ok image_slash_in_query "out/images" false empty_world)
     = Returns ("out/images/home",
                {| url := "https://x.com/a/img.jpg?next=/home"; alt_text := "A";
                   local_path := Some "out/images/home" |})
  /\ files (snd (save net_all_ok image_slash_in_query "out/images" false empty_world))
       !! "out/images/home" = Some "DATA".
Proof.
  split; [reflexivity |]. split; [reflexivity |]. split; [reflexivity |].
  split; [vm_compute; discriminate |]. split; vm_compute; reflexivity.
Qed.

(** The same evaluation on its own. *)
Example get_filename_slash_in_query :
  get_filename {| url := "https://x.com/a/img.jpg?next=/home"; alt_text := "";
                  local_path := None |} = "home".
Proof. reflexivity. Qed.

Example get_filepath_docstring :
  get_filepath {| url := "https://example.com/image.jpg"; alt_text := "";
                  local_path := None |} = "image.jpg"
  /\ get_filepath {| url := "https://example.com/a/b/image.jpg?x=1"; alt_text := "";
                     local_path := None |} = "a/b/image.jpg"
  /\ get_filepath {| url := "https://example.com/many/dir/path/to/image.jpg?size=large";
                     alt_text := ""; local_path := None |} = "many/dir/path/to/image.jpg"
  /\ get_filepath {| url := "https://example.com"; alt_text := "";
                     local_path := None |} = "".
Proof. repeat split; reflexivity. Qed.

(** ** utils.py: URL validation *)

Lemma only_probes_refl (w : World) : only_probes w w.
Proof.
  repeat split. exists []. split; [now rewrite app_nil_r | constructor].
Qed.

Lemma only_probes_trans (w1 w2 w3 : World) :
  only_probes w1 w2 -> only_probes w2 w3 -> only_probes w1 w3.
Proof.
  intros (Hf & Hd & l & Ht & Hl) (Hf' & Hd' & l' & Ht' & Hl').
  repeat split; try congruence.
  exists (l ++ l'). split.
  - rewrite Ht', Ht. now rewrite <- app_assoc.
  - now apply Forall_app.
Qed.

Lemma only_probes_head (w : World) (u : string) : only_probes w (log (EvHead u) w).
Proof.
  repeat split. exists [EvHead u]. split; [reflexivity |].
  constructor; [reflexivity | constructor].
Qed.

(** Probes are not fetches: no GET request is new. *)
Lemma only_probes_no_get (w w' : World) (u : string) :
  only_probes w w' -> EvGet u ∈ trace w' -> EvGet u ∈ trace w.
Proof.
  intros (_ & _ & l & Ht & Hl) Hin. rewrite Ht in Hin.
  apply elem_of_app in Hin as [Hin|Hin]; [exact Hin |].
  rewrite Forall_forall in Hl. apply Hl in Hin. discriminate.
Qed.

(** The two ways [validate_url] can end. *)
Lemma validate_url_cases (net : Net) (u : string) (w : World) :
  (invalid_url net u
   /\ exists why w', validate_url net u w = (Raises (ValueError why), w')
                    /\ only_probes w w')
  \/ (~ invalid_url net u
      /\ validate_url net u w = (Returns tt, log (EvHead u) w)).
Proof.
  unfold validate_url, invalid_url.
  destruct u as [|c u'] eqn:Eu.
  { left. split; [now left |]. exists UrlEmpty, w. split; [reflexivity |].
    apply only_probes_refl. }
  rewrite <- Eu. replace (PyStr.truthy u) with true by now subst.
  cbn [negb].
  destruct (PyStr.startswith "http://" u) eqn:Eh;
    destruct (PyStr.startswith "https://" u) eqn:Es; cbn [negb andb].
  4:{ left. split; [right; left; now split |].
      exists UrlBadScheme, w. split; [reflexivity | apply only_probes_refl]. }
  all: unfold try_except_request, bind, requests_head, raise_for_status, probe_fails;
    destruct (net_head net u) as [|st b] eqn:En; cbn [fst].
  all: try (left; split; [right; right; reflexivity |];
            exists UrlUnreachable, (log (EvHead u) w);
            split; [reflexivity | apply only_probes_head]).
  all: destruct ((400 <=? st)%Z && (st <? 600)%Z) eqn:Est.
  all: try (left; split; [right; right; reflexivity |];
            exists UrlUnreachable, (log (EvHead u) w);
            split; [reflexivity | apply only_probes_head]).
  all: right; split; [| reflexivity].
  all: intros [H|[[H1 H2]|H]]; subst; try discriminate; congruence.
Qed.

(** C7, as the code has it: [validate_url] raises [ValueError] exactly when
    the URL is empty, has neither the [http://] nor the [https://] prefix,
    or its HEAD probe fails in the transport or is answered with a status
    from 400 to 599 (what [raise_for_status] rejects); with any other
    answer, a 3xx redirect included, it returns after that one probe.  For
    a URL it rejects the constructor of [PyWebScraper] raises the same kind
    of error, and the page has not been requested: every GET in the trace
    was there before the call. *)
Theorem validate_url_three_cases (net : Net)
    (html_parser : option string -> outcome (list node)) (u : string) (w : World) :
  ((exists why w', validate_url net u w = (Raises (ValueError why), w'))
   <-> invalid_url net u)
  /\ (~ invalid_url net u -> validate_url net u w = (Returns tt, log (EvHead u) w))
  /\ (invalid_url net u ->
      exists why w',
        PyWebScraper_init net html_parser u w = (Raises (ValueError why), w')
        /\ forall page, EvGet page ∈ trace w' -> EvGet page ∈ trace w).
Proof.
  destruct (validate_url_cases net u w)
    as [(Hinv & why & w' & Hv & Hp) | (Hval & Hv)].
  - split; [| split].
    + split; [intros _; exact Hinv | intros _; eauto].
    + intros Hn. contradiction.
    + intros _. exists why, w'. split.
      * unfold PyWebScraper_init, bind. now rewrite Hv.
      * intros page. now apply only_probes_no_get.
  - split; [| split].
    + split; [| intros Hi; contradiction].
      intros (why & w' & Hr). rewrite Hv in Hr. discriminate.
    + intros _. exact Hv.
    + intros Hi. contradiction.
Qed.

Lemma validate_url_three_cases_witness :
  exists why w',
    PyWebScraper_init net_all_ok parse_nothing "ftp://example.com" empty_world
    = (Raises (ValueError why), w')
    /\ forall page, EvGet page ∈ trace w' -> EvGet page ∈ trace empty_world.
Proof.
  apply (proj2 (proj2 (validate_url_three_cases net_all_ok parse_nothing
                         "ftp://example.com" empty_world))).
  right; left. split; reflexivity.
Defined.

(** C7 fails as stated: a HEAD answered with 301 is not a success status,
    yet [validate_url] returns and the constructor goes on to fetch the
    page. *)
Lemma validate_url_accepts_redirect :
  invalid_url_as_claimed net_redirect "https://x.com/moved"
  /\ validate_url net_redirect "https://x.com/moved" empty_world
     = (Returns tt, log (EvHead "https://x.com/moved") empty_world)
  /\ ~ (exists why w',
          validate_url net_redirect "https://x.com/moved" empty_world
          = (Raises (ValueError why), w'))
  /\ trace (snd (PyWebScraper_init net_redirect parse_nothing "https://x.com/moved"
                   empty_world))
     = [EvHead "https://x.com/moved"; EvGet "https://x.com/moved"].
Proof.
  split; [right; right; reflexivity |]. split; [reflexivity |].
  split; [| reflexivity].
  intros (why & w' & H). vm_compute in H. discriminate H.
Qed.

(** The URLs of the test suite, against a network where only
    [https://www.example.com/invalid_url] answers 404. *)
Example validate_url_test_suite :
  let net := {| net_head := fun u =>
                  if String.eqb u "https://www.example.com/invalid_url"
                  then Response 404 "" else Response 200 "";
                net_get := fun _ => Response 200 "" |} in
  fst (validate_url net "https://www.google.com/search?q=python" empty_world) = Returns tt
  /\ fst (validate_url net "http:google.com" empty_world) = Raises (ValueError UrlBadScheme)
  /\ fst (validate_url net "ftp://example.com" empty_world) = Raises (ValueError UrlBadScheme)
  /\ fst (validate_url net "https://www.example.com/invalid_url" empty_world)
     = Raises (ValueError UrlUnreachable)
  /\ fst (validate_url net "" empty_world) = Raises (ValueError UrlEmpty).
Proof. repeat split; reflexivity. Qed.

(** ** image.py and scraper.py: building the image list *)

Lemma ImageContent_init_cases (net : Net) (u alt : string) (w : World) :
  (invalid_url net u
   /\ exists why w', ImageContent_init net u alt w = (Raises (ValueError why), w')
                    /\ only_probes w w')
  \/ (~ invalid_url net u
      /\ ImageContent_init net u alt w
         = (Returns {| url := u; alt_text := alt; local_path := None |},
            log (EvHead u) w)).
Proof.
  unfold ImageContent_init, bind.
  destruct (validate_url_cases net u w)
    as [(Hinv & why & w' & Hv & Hp) | (Hval & Hv)]; rewrite Hv.
  - left. split; [exact Hinv |]. now exists why, w'.
  - right. split; [exact Hval | reflexivity].
Qed.

(** One invalid URL anywhere in the list makes the whole comprehension
    raise, after probes only. *)
Lemma mapM_init_raises (net : Net) (l : list (string * string)) (w : World) :
  (exists alt u, (alt, u) ∈ l /\ invalid_url net u) ->
  exists why w',
    mapM (fun '(alt, u) => ImageContent_init net u alt) l w
    = (Raises (ValueError why), w')
    /\ only_probes w w'.
Proof.
  revert w. induction l as [|[alt0 u0] l IH]; intros w (alt & u & Hin & Hinv).
  - now apply elem_of_nil in Hin.
  - cbn [mapM]. unfold bind at 1.
    destruct (ImageContent_init_cases net u0 alt0 w)
      as [(_ & why & w' & Hv & Hp) | (Hval & Hv)]; rewrite Hv.
    + now exists why, w'.
    + apply elem_of_cons in Hin as [Heq|Hin].
      { inversion Heq; subst. contradiction. }
      destruct (IH (log (EvHead u0) w)) as (why & w' & Hm & Hp); [eauto |].
      exists why, w'. split.
      * unfold bind. now rewrite Hm.
      * eapply only_probes_trans; [apply only_probes_head | exact Hp].
Qed.

(** C10: constructing an [ImageContent] runs [validate_url] on its URL,
    probe included: for an invalid URL (empty, wrong scheme, failed probe)
    the constructor raises [ValueError] having done nothing but probes (no
    GET, no file), and for a valid one it returns the object after one HEAD
    request.  Hence [get_images], when the list is not cached yet, raises
    [ValueError] as soon as one discovered pair carries an invalid URL, and
    returns no list. *)
Theorem image_creation_validates (net : Net) (self : PyWebScraper) (w : World) :
  (forall u alt,
      (invalid_url net u ->
       exists why w', ImageContent_init net u alt w = (Raises (ValueError why), w')
                      /\ only_probes w w')
      /\ (~ invalid_url net u ->
          ImageContent_init net u alt w
          = (Returns {| url := u; alt_text := alt; local_path := None |},
             log (EvHead u) w)))
  /\ (_images self = None ->
      (exists alt u, (alt, u) ∈ extract_images self /\ invalid_url net u) ->
      exists why w',
        get_images net self w = (Raises (ValueError why), w')
        /\ only_probes w w'
        /\ forall x, EvGet x ∈ trace w' -> EvGet x ∈ trace w).
Proof.
  split.
  - intros u alt.
    destruct (ImageContent_init_cases net u alt w)
      as [(Hinv & Hr) | (Hval & Hr)]; split; intros H; try contradiction; exact Hr.
  - intros Hnone Hbad. unfold get_images. rewrite Hnone.
    destruct (mapM_init_raises net (extract_images self) w Hbad)
      as (why & w' & Hm & Hp).
    exists why, w'. split; [| split].
    + unfold bind. now rewrite Hm.
    + exact Hp.
    + intros x. now apply only_probes_no_get.
Qed.

(** ** scraper.py: selecting the content region *)

Lemma first_match_Some (p : node -> bool) (l : list node) (x : node) :
  first_match p l = Some x <-> first_in p l x.
Proof.
  induction l as [|y l IH]; simpl.
  - split; [discriminate |]. intros (b & a & H & _). now destruct b.
  - destruct (p y) eqn:E.
    + split.
      * intros [= ->]. exists [], l. repeat split; [exact E | constructor].
      * intros (b & a & H & Hx & Hb). destruct b as [|z b].
        -- now inversion H.
        -- inversion H; subst. inversion Hb; congruence.
    + rewrite IH. split.
      * intros (b & a & -> & Hx & Hb). exists (y :: b), a.
        repeat split; [exact Hx | now constructor].
      * intros (b & a & H & Hx & Hb). destruct b as [|z b].
        -- inversion H; subst. congruence.
        -- inversion H; subst. inversion Hb; subst. now exists b, a.
Qed.

Lemma first_match_None (p : node -> bool) (l : list node) :
  first_match p l = None <-> none_in p l.
Proof.
  unfold none_in. induction l as [|y l IH]; simpl.
  - split; [constructor | reflexivity].
  - destruct (p y) eqn:E.
    + split; [discriminate |]. intros H. inversion H; congruence.
    + rewrite IH. split; [now constructor | intros H; now inversion H].
Qed.

(** C2, as the code has it: [extract_content] always returns; the value is
    [None] exactly when the document has no [article] element, no [div]
    whose class matches ["content"] and no [body] element, and that value is
    what [_content] holds afterwards. *)
Theorem extract_content_absent_region (self : PyWebScraper) :
  let D := descendants (_soup self) in
  (snd (extract_content self) = None
   <-> none_in (has_name "article") D /\ none_in is_content_div D
       /\ none_in (has_name "body") D)
  /\ fst (extract_content self) = set_content self (snd (extract_content self)).
Proof.
  cbn zeta. split; [| reflexivity].
  unfold extract_content, find, find_class. cbn [snd].
  rewrite <- !first_match_None. fold is_content_div.
  change (fun n => has_name "div" n && class_matches "content" n) with is_content_div.
  destruct (first_match (has_name "article") (descendants (_soup self)));
    destruct (first_match is_content_div (descendants (_soup self)));
    destruct (first_match (has_name "body") (descendants (_soup self)));
    simpl; split; try discriminate; try tauto;
    intros (H1 & H2 & H3); discriminate.
Qed.

(** C2 fails as stated: a document with no [article], no element of class
    [content] and no [body] makes [extract_content] return [None]; nothing
    is raised. *)
Lemma extract_content_fragment_returns_none :
  let D := descendants (_soup page_fragment) in
  first_match (has_name "article") D = None
  /\ first_match (class_matches "content") D = None
  /\ first_match (has_name "body") D = None
  /\ extract_content page_fragment = (page_fragment, None).
Proof. repeat split; reflexivity. Qed.

Lemma extract_content_absent_region_witness :
  snd (extract_content page_fragment) = None.
Proof.
  apply (proj1 (extract_content_absent_region page_fragment)).
  repeat split; repeat constructor.
Defined.

(** C4, as the code has it: the region is chosen by a fixed priority over
    the document in document order: the first [article] element; failing
    that the first [div] element whose class matches ["content"]; failing
    that the first [body] element; failing that nothing.  The choice is a
    function of the document, and it is what [_content] holds afterwards. *)
Theorem extract_content_priority (self : PyWebScraper) :
  let D := descendants (_soup self) in
  let region := snd (extract_content self) in
  (forall a, first_in (has_name "article") D a -> region = Some a)
  /\ (none_in (has_name "article") D ->
      forall d, first_in is_content_div D d -> region = Some d)
  /\ (none_in (has_name "article") D -> none_in is_content_div D ->
      forall b, first_in (has_name "body") D b -> region = Some b)
  /\ (none_in (has_name "article") D -> none_in is_content_div D ->
      none_in (has_name "body") D -> region = None)
  /\ fst (extract_content self) = set_content self region.
Proof.
  cbn zeta. unfold extract_content, find, find_class. cbn [snd fst].
  change (fun n => has_name "div" n && class_matches "content" n) with is_content_div.
  repeat split.
  - intros a Ha. apply first_match_Some in Ha. now rewrite Ha.
  - intros Hn d Hd. apply first_match_None in Hn. apply first_match_Some in Hd.
    now rewrite Hn, Hd.
  - intros Hn Hc b Hb. apply first_match_None in Hn, Hc.
    apply first_match_Some in Hb. now rewrite Hn, Hc, Hb.
  - intros Hn Hc Hb. apply first_match_None in Hn, Hc, Hb.
    now rewrite Hn, Hc, Hb.
Qed.

Lemma extract_content_priority_witness :
  snd (extract_content page_with_content_div) = Some content_div.
Proof.
  apply (proj1 (proj2 (extract_content_priority page_with_content_div))).
  - repeat constructor.
  - exists [Tag "html" ∅ None [Tag "body" ∅ None [Tag "nav" ∅ None []; content_div]];
            Tag "body" ∅ None [Tag "nav" ∅ None []; content_div];
            Tag "nav" ∅ None []],
           [NavigableString "text"].
    repeat split; repeat constructor.
Defined.

(** C4 fails as stated: an element of class [content] that is not a [div]
    is passed over, and the [body] is selected instead. *)
Lemma extract_content_skips_content_section :
  select_region_any_tag (_soup page_with_content_section) = Some content_section
  /\ snd (extract_content page_with_content_section) = Some body_with_section
  /\ snd (extract_content page_with_content_section)
     <> select_region_any_tag (_soup page_with_content_section).
Proof.
  split; [reflexivity | split; [reflexivity |]].
  intros H. apply (f_equal (fun r => match r with
                                     | Some (Tag nm _ _ _) => nm
                                     | _ => ""
                                     end)) in H.
  discriminate H.
Qed.

(** One document per rule. *)
Example extract_content_fixtures :
  snd (extract_content page_with_article) = Some article_node
  /\ snd (extract_content page_with_content_div) = Some content_div
  /\ snd (extract_content (mk_page [Tag "html" ∅ None
                                      [Tag "body" ∅ None [NavigableString "x"]]]))
     = Some (Tag "body" ∅ None [NavigableString "x"]).
Proof. repeat split; reflexivity. Qed.

(** ** scraper.py: enumerating the images *)

Lemma extract_images_loop (l : list node) (acc : list (string * string)) :
  fold_left extract_images_step l acc = acc ++ omap image_reference l.
Proof.
  revert acc. induction l as [|img l IH]; intros acc; simpl.
  - now rewrite app_nil_r.
  - rewrite IH. unfold extract_images_step, image_reference.
    destruct (get img "src") as [u|]; [| reflexivity].
    destruct (PyStr.truthy u); [| reflexivity].
    now rewrite <- app_assoc.
Qed.

(** C9, as the code has it: [extract_images] walks every node of the whole
    document in document order, keeps the [img] elements, and yields for
    each one whose [src] is present and non-empty the pair of its [alt]
    (["Image"] when absent) and its [src]; an [img] whose [src] is absent or
    empty yields nothing.  Order and repetitions are those of the
    document. *)
Theorem extract_images_document_order (self : PyWebScraper) :
  extract_images self
  = omap image_reference
      (filter (fun n => has_name "img" n = true) (descendants (_soup self))).
Proof.
  unfold extract_images, find_all. now rewrite extract_images_loop.
Qed.

(** C9 fails as stated: an [img] whose source attribute is present but
    empty is skipped as well. *)
Lemma extract_images_skips_empty_src :
  image_references_with_src (_soup page_with_empty_src) = [("Image", "")]
  /\ extract_images page_with_empty_src = []
  /\ extract_images page_with_empty_src
     <> image_references_with_src (_soup page_with_empty_src).
Proof.
  split; [reflexivity | split; [reflexivity |]]. vm_compute. discriminate.
Qed.

(** Images outside the selected region are found, the default alt text is
    used only when the attribute is absent, and a repeated URL is kept. *)
Example extract_images_whole_document :
  snd (extract_content page_with_images)
  = Some (Tag "article" ∅ None
            [img_tag {[ "src" := "https://x.com/a.png"; "alt" := "A" ]};
             img_tag {[ "alt" := "no source" ]};
             img_tag {[ "src" := "https://x.com/a.png"; "alt" := "" ]}])
  /\ extract_images page_with_images
     = [("Image", "https://x.com/logo.png"); ("A", "https://x.com/a.png");
        ("", "https://x.com/a.png")].
Proof. split; vm_compute; reflexivity. Qed.

(** ** scraper.py: rewriting the content *)

Lemma set_images_same (self : PyWebScraper) (images : list ImageContent) :
  _images self = Some images -> set_images self images = self.
Proof. destruct self; simpl; intros ->; reflexivity. Qed.

(** Saved images are not saved again: the loop only substitutes. *)
Lemma process_loop_saved (net : Net) (path save_path : string) (flatten_images : bool)
    (images : list ImageContent) (content : string) (w : World) :
  Forall (fun image => has_local_path image = true) images ->
  process_loop net path save_path flatten_images images content w
  = (Returns (rewrite_all path images content), images, w).
Proof.
  intros H. revert content. induction H as [|image images Hi _ IH]; intros content.
  - reflexivity.
  - cbn [process_loop]. rewrite Hi. cbn [negb].
    unfold has_local_path in Hi.
    destruct (local_path image) as [lp|] eqn:E; [| discriminate].
    rewrite IH. unfold rewrite_all. cbn [fold_left]. now rewrite E.
Qed.

(** C8: when the cached image list is there and every image in it has a
    local path (as the code tests it: present and non-empty),
    [_process_images] returns the content with the substitutions applied and
    leaves the scraper and the world as they were: no request, no file, no
    directory.  A second call from the state the first one left therefore
    returns the same content, again without touching anything. *)
Theorem process_images_saved_idempotent (net : Net) (self : PyWebScraper)
    (images : list ImageContent) (content path images_dir_name : string)
    (flatten_images : bool) (w : World) :
  _images self = Some images ->
  Forall (fun image => has_local_path image = true) images ->
  let run1 := _process_images net self content path images_dir_name flatten_images w in
  let run2 := _process_images net (snd (fst run1)) content path images_dir_name
                flatten_images (snd run1) in
  fst (fst run1) = Returns (rewrite_all path images content)
  /\ snd (fst run1) = self /\ snd run1 = w
  /\ fst (fst run2) = fst (fst run1)
  /\ snd (fst run2) = self /\ snd run2 = w.
Proof.
  intros Hc Hs.
  assert (Hrun : _process_images net self content path images_dir_name flatten_images w
                 = (Returns (rewrite_all path images content), self, w)).
  { unfold _process_images, get_images. rewrite Hc. unfold ret.
    rewrite process_loop_saved by exact Hs. now rewrite set_images_same. }
  cbn zeta. rewrite Hrun. cbn [fst snd]. rewrite Hrun. cbn [fst snd]. auto 10.
Qed.

Lemma process_images_saved_idempotent_witness :
  let run1 := _process_images net_all_ok page_saved
                "![A](https://x.com/a/b.png?s=1)" "out" "images" false empty_world in
  let run2 := _process_images net_all_ok (snd (fst run1))
                "![A](https://x.com/a/b.png?s=1)" "out" "images" false (snd run1) in
  fst (fst run1)
  = Returns (rewrite_all "out"
               [ {| url := "https://x.com/a/b.png?s=1"; alt_text := "A";
                    local_path := Some "out/images/a/b.png" |} ]
               "![A](https://x.com/a/b.png?s=1)")
  /\ snd (fst run1) = page_saved /\ snd run1 = empty_world
  /\ fst (fst run2) = fst (fst run1)
  /\ snd (fst run2) = page_saved /\ snd run2 = empty_world.
Proof.
  apply (process_images_saved_idempotent net_all_ok page_saved
           [ {| url := "https://x.com/a/b.png?s=1"; alt_text := "A";
                local_path := Some "out/images/a/b.png" |} ]).
  - reflexivity.
  - repeat constructor.
Defined.

Example process_images_saved_content :
  rewrite_all "out"
    [ {| url := "https://x.com/a/b.png?s=1"; alt_text := "A";
         local_path := Some "out/images/a/b.png" |} ]
    "![A](https://x.com/a/b.png?s=1) and ![A](https://x.com/a/b.png?s=1)"
  = "![A](/images/a/b.png) and ![A](/images/a/b.png)".
Proof. reflexivity. Qed.

(** The end-to-end scenario of the specification: the reference becomes
    [/images/a/b.png] and the bytes are at [out/images/a/b.png]. *)
Example process_images_end_to_end :
  let run := _process_images net_all_ok page_one_img
               "![A](https://x.com/a/b.png?s=1)" "out" "images" false empty_world in
  fst (fst run) = Returns "![A](/images/a/b.png)"
  /\ files (snd run) !! "out/images/a/b.png" = Some "DATA"
  /\ (local_path <$> default [] (_images (snd (fst run))))
     = [Some "out/images/a/b.png"].
Proof. vm_compute. repeat split; reflexivity. Qed.

(** ** A failed download *)

Lemma download_failed_none (net : Net) (image : ImageContent) (w : World) :
  download_fails net (url image) = true ->
  _download net image w = (Returns None, log (EvGet (url image)) w).
Proof.
  unfold download_fails, _download, try_except_request, bind, requests_get,
    raise_for_status.
  destruct (net_get net (url image)) as [|st b]; [reflexivity |].
  cbn [fst]. intros ->. reflexivity.
Qed.

(** A file operation that did not return raised: take its guards apart. *)
Ltac raised_by H :=
  repeat match type of H with
         | (if ?c then _ else _) = _ => destruct c
         end;
  inversion H; subst; eexists _, _; split; eauto.

(** [save] cannot return when the download failed: writing [None] raises,
    unless creating the directory or opening the file already did. *)
Lemma save_raises_on_failed_download (net : Net) (image : ImageContent)
    (path : string) (use_subdirectories : bool) (w : World) :
  download_fails net (url image) = true ->
  exists e w', save net image path use_subdirectories w = (Raises e, w')
               /\ (e = OSError \/ e = TypeError).
Proof.
  intros Hd. unfold save.
  set (full_path := OsPath.join path _).
  unfold bind at 1.
  destruct (negb (path_exists w (OsPath.dirname full_path))).
  - destruct (makedirs (OsPath.dirname full_path) w) as [[[]|e] w1] eqn:Em.
    + unfold bind at 1. rewrite download_failed_none by exact Hd.
      unfold bind at 1.
      destruct (open_wb full_path (log (EvGet (url image)) w1)) as [[[]|e] w2] eqn:Eo.
      * eexists _, _. split; [reflexivity | now right].
      * unfold open_wb in Eo. raised_by Eo.
    + unfold makedirs in Em. raised_by Em.
  - unfold ret at 1. unfold bind at 1. rewrite download_failed_none by exact Hd.
    unfold bind at 1.
    destruct (open_wb full_path (log (EvGet (url image)) w)) as [[[]|e] w2] eqn:Eo.
    + eexists _, _. split; [reflexivity | now right].
    + unfold open_wb in Eo. raised_by Eo.
Qed.

(** So the loop of [_process_images] stops at the first image that has no
    local path and cannot be downloaded. *)
Lemma process_loop_raises_on_failed_download (net : Net) (path save_path : string)
    (flatten_images : bool) (image : ImageContent) (rest : list ImageContent)
    (content : string) (w : World) :
  has_local_path image = false ->
  download_fails net (url image) = true ->
  exists e w',
    process_loop net path save_path flatten_images (image :: rest) content w
    = (Raises e, image :: rest, w')
    /\ (e = OSError \/ e = TypeError).
Proof.
  intros Hl Hd. cbn [process_loop]. rewrite Hl. cbn [negb].
  destruct (save_raises_on_failed_download net image save_path
              (negb flatten_images) w Hd) as (e & w' & Hs & He).
  rewrite Hs. now exists e, w'.
Qed.

(** C1 at a failing input: a page with two images, the download of the
    first of which fails.  [_download] swallows the transport error and
    returns [None]; [save] then opens the target file, which creates it
    empty, and writing [None] raises [TypeError].  The error leaves
    [_process_images]: no content is returned, the second image is never
    requested, and an empty file stands where the first image should be. *)
Theorem process_images_failed_download_aborts :
  let run := _process_images net_a_down page_two_images
               "![A](https://x.com/a.png) ![B](https://x.com/b.png)"
               "out" "images" false empty_world in
  download_fails net_a_down "https://x.com/a.png" = true
  /\ fst (fst run) = Raises TypeError
  /\ files (snd run) !! "out/images/a.png" = Some ""
  /\ files (snd run) !! "out/images/b.png" = None
  /\ trace (snd run)
     = [EvHead "https://x.com/a.png"; EvHead "https://x.com/b.png";
        EvGet "https://x.com/a.png"].
Proof. vm_compute. repeat split; reflexivity. Qed.

(** With every download succeeding the same page is rewritten in full. *)
Example process_images_two_images_ok :
  let run := _process_images net_all_ok page_two_images
               "![A](https://x.com/a.png) ![B](https://x.com/b.png)"
               "out" "images" false empty_world in
  fst (fst run) = Returns "![A](/images/a.png) ![B](/images/b.png)"
  /\ files (snd run) !! "out/images/a.png" = Some "DATA"
  /\ files (snd run) !! "out/images/b.png" = Some "DATA".
Proof. vm_compute. repeat split; reflexivity. Qed.

(** C3 at two failing inputs.  The URL is replaced everywhere, but the
    replacement is the local path with every occurrence of the output
    directory's name removed, not only the one at its front: with output
    directory [output] and an image under [/output/] the reference written
    is [/images//a.png] while the file is at [output/images/output/a.png];
    with output directory [.] the dot of the file extension goes too. *)
Theorem process_images_strips_every_occurrence :
  let run := _process_images net_all_ok page_output_img
               "![A](https://x.com/output/a.png) ![A](https://x.com/output/a.png)"
               "output" "images" false empty_world in
  let run_dot := _process_images net_all_ok page_one_img
                   "![A](https://x.com/a/b.png?s=1)" "." "images" false empty_world in
  fst (fst run) = Returns "![A](/images//a.png) ![A](/images//a.png)"
  /\ files (snd run) !! "output/images/output/a.png" = Some "DATA"
  /\ strip_front "output" "output/images/output/a.png" = "/images/output/a.png"
  /\ fst (fst run_dot) = Returns "![A](/images/a/bpng)"
  /\ files (snd run_dot) !! "./images/a/b.png" = Some "DATA"
  /\ strip_front "." "./images/a/b.png" = "/images/a/b.png".
Proof. vm_compute. repeat split; reflexivity. Qed.

(** When the name of the output directory occurs in the local path only at
    its front, the replacement is the path relative to that directory. *)
Example replace_strips_front_when_unique :
  PyStr.replace "out/images/a/b.png" "out" "" = strip_front "out" "out/images/a/b.png".
Proof. reflexivity. Qed.

Lemma image_creation_validates_witness :
  exists why w',
    get_images net_all_ok
      (mk_page [Tag "body" ∅ None
                  [img_tag {[ "src" := "https://x.com/a.png" ]};
                   img_tag {[ "src" := "/logo.png" ]}]]) empty_world
    = (Raises (ValueError why), w')
    /\ only_probes empty_world w'
    /\ forall x, EvGet x ∈ trace w' -> EvGet x ∈ trace empty_world.
Proof.
  apply (proj2 (image_creation_validates net_all_ok _ empty_world)).
  - reflexivity.
  - exists "Image", "/logo.png". split.
    + vm_compute. repeat constructor.
    + right; left. split; reflexivity.
Defined.
(** ** The string and path primitives on the inputs the program meets *)

Example split_url :
  PyStr.split "/" "https://example.com/a/b.png"
  = ["https:"; ""; "example.com"; "a"; "b.png"].
Proof. reflexivity. Qed.

Example replace_all_occurrences : PyStr.replace "abcabca" "bc" "X" = "aXaXa".
Proof. reflexivity. Qed.

Example replace_non_overlapping : PyStr.replace "aaaa" "aa" "b" = "bb".
Proof. reflexivity. Qed.

Example replace_empty_old : PyStr.replace "ab" "" "-" = "-a-b-".
Proof. reflexivity. Qed.

Example join_paths :
  OsPath.join "output" "images" = "output/images"
  /\ OsPath.join "output/" "images" = "output/images"
  /\ OsPath.join "output" "/abs" = "/abs"
  /\ OsPath.join "" "images" = "images".
Proof. repeat split; reflexivity. Qed.

Example dirname_paths :
  OsPath.dirname "output/images/a/b.png" = "output/images/a"
  /\ OsPath.dirname "b.png" = ""
  /\ OsPath.dirname "/b.png" = "/"
  /\ OsPath.dirname "a//b" = "a"
  /\ OsPath.dirname "output/images/" = "output/images".
Proof. repeat split; reflexivity. Qed.

(** ** Further properties: the transport and the constructor *)

Lemma fetch_outcome (net : Net) (u : string) (w : World) :
  exists html,
    _fetch_html net u w = (Returns html, log (EvGet u) w)
    /\ (html = None <-> download_fails net u = true)
    /\ (forall b, html = Some b -> exists st, net_get net u = Response st b).
Proof.
  unfold _fetch_html, download_fails, try_except_request, bind, requests_get,
    raise_for_status.
  destruct (net_get net u) as [|st b].
  - exists None. repeat split; auto. discriminate.
  - cbn [fst snd]. destruct ((400 <=? st)%Z && (st <? 600)%Z).
    + exists None. repeat split; auto. discriminate.
    + exists (Some b). repeat split; try discriminate.
      intros b' [= <-]. now exists st.
Qed.

(** X1: neither [_fetch_html] nor [_download] ever raises.  Each issues
    exactly one GET and returns the body of the answer, or [None] exactly
    when the transport raised or the status was rejected; files and
    directories are not touched. *)
Theorem transport_errors_are_swallowed (net : Net) (u : string)
    (image : ImageContent) (w : World) :
  (exists html,
      _fetch_html net u w = (Returns html, log (EvGet u) w)
      /\ (html = None <-> download_fails net u = true)
      /\ (forall b, html = Some b -> exists st, net_get net u = Response st b))
  /\ (exists data,
      _download net image w = (Returns data, log (EvGet (url image)) w)
      /\ (data = None <-> download_fails net (url image) = true)
      /\ (forall b, data = Some b ->
          exists st, net_get net (url image) = Response st b)).
Proof.
  split; [apply fetch_outcome |].
  exact (fetch_outcome net (url image) w).
Qed.

(** X2: [validate_url] never touches files or directories, sends no request
    at all for a URL that is empty or lacks the [http://]/[https://] prefix,
    and sends exactly one HEAD otherwise, whatever the answer: nothing is
    remembered between calls. *)
Theorem validate_url_effects (net : Net) (u : string) (w : World) :
  let w' := snd (validate_url net u w) in
  files w' = files w /\ dirs w' = dirs w
  /\ trace w'
     = trace w
       ++ (if PyStr.truthy u
              && (PyStr.startswith "http://" u || PyStr.startswith "https://" u)
           then [EvHead u] else []).
Proof.
  cbn zeta. unfold validate_url.
  destruct (PyStr.truthy u); cbn [negb andb].
  2:{ cbn. now rewrite app_nil_r. }
  destruct (PyStr.startswith "http://" u), (PyStr.startswith "https://" u);
    cbn [negb andb orb].
  4:{ cbn. now rewrite app_nil_r. }
  all: unfold try_except_request, bind, requests_head, raise_for_status;
    destruct (net_head net u) as [|st b]; cbn [fst snd];
    [| destruct ((400 <=? st)%Z && (st <? 600)%Z)]; cbn; auto.
Qed.

(** X3: for a URL that passes validation the constructor sends the HEAD
    probe and then one GET, and hands the parser the page text, or [None]
    when that GET failed: a failed page fetch raises nothing by itself.  The
    new object has neither a content region nor an image list. *)
Theorem init_fetches_after_validation (net : Net)
    (html_parser : option string -> outcome (list node)) (u : string) (w : World) :
  ~ invalid_url net u ->
  exists html,
    (html = None <-> download_fails net u = true)
    /\ (forall b, html = Some b -> exists st, net_get net u = Response st b)
    /\ PyWebScraper_init net html_parser u w
       = match html_parser html with
         | Returns soup =>
             (Returns {| scraper_url := u; _soup := soup;
                         _content := None; _images := None |},
              log (EvGet u) (log (EvHead u) w))
         | Raises e => (Raises e, log (EvGet u) (log (EvHead u) w))
         end.
Proof.
  intros Hv.
  destruct (validate_url_cases net u w) as [(Hi & _) | (_ & Hr)]; [contradiction |].
  destruct (fetch_outcome net u (log (EvHead u) w)) as (html & Hf & Hn & Hb).
  exists html. split; [exact Hn | split; [exact Hb |]].
  unfold PyWebScraper_init, bind. rewrite Hr, Hf.
  destruct (html_parser html); reflexivity.
Qed.

Lemma init_fetches_after_validation_witness :
  exists html,
    (html = None <-> download_fails net_a_down "https://x.com/a.png" = true)
    /\ (forall b, html = Some b ->
        exists st, net_get net_a_down "https://x.com/a.png" = Response st b)
    /\ PyWebScraper_init net_a_down parse_nothing "https://x.com/a.png" empty_world
       = match parse_nothing html with
         | Returns soup =>
             (Returns {| scraper_url := "https://x.com/a.png"; _soup := soup;
                         _content := None; _images := None |},
              log (EvGet "https://x.com/a.png")
                (log (EvHead "https://x.com/a.png") empty_world))
         | Raises e => (Raises e, log (EvGet "https://x.com/a.png")
                                    (log (EvHead "https://x.com/a.png") empty_world))
         end.
Proof.
  apply (init_fetches_after_validation net_a_down parse_nothing
           "https://x.com/a.png" empty_world).
  intros [H | [[_ H] | H]]; vm_compute in H; discriminate H.
Defined.

(** ** Further properties: the region and the image list *)

Lemma first_match_elem (p : node -> bool) (l : list node) (x : node) :
  first_match p l = Some x -> x ∈ l /\ p x = true.
Proof.
  intros H. apply first_match_Some in H as (b & a & -> & Hp & _).
  split; [| exact Hp]. apply elem_of_app. right. apply elem_of_cons. now left.
Qed.

(** X4: whatever [extract_content] returns is a node of the document, and
    it is an [article], a [div] whose class matches ["content"], or a
    [body]: never a text node and never any other element. *)
Theorem extract_content_region_in_document (self : PyWebScraper) (n : node) :
  snd (extract_content self) = Some n ->
  n ∈ descendants (_soup self)
  /\ (has_name "article" n = true \/ is_content_div n = true
      \/ has_name "body" n = true).
Proof.
  unfold extract_content, find, find_class. cbn [snd].
  change (fun n => has_name "div" n && class_matches "content" n) with is_content_div.
  destruct (first_match (has_name "article") _) eqn:Ea; cbn [or_else].
  { intros [= <-]. apply first_match_elem in Ea as [? ?]. auto. }
  destruct (first_match is_content_div _) eqn:Ed; cbn [or_else].
  { intros [= <-]. apply first_match_elem in Ed as [? ?]. auto. }
  destruct (first_match (has_name "body") _) eqn:Eb; [| discriminate].
  intros [= <-]. apply first_match_elem in Eb as [? ?]. auto.
Qed.

Lemma extract_content_region_in_document_witness :
  article_node ∈ descendants (_soup page_with_article)
  /\ (has_name "article" article_node = true \/ is_content_div article_node = true
      \/ has_name "body" article_node = true).
Proof.
  apply (extract_content_region_in_document page_with_article article_node).
  reflexivity.
Defined.

(** X5: every pair returned by [extract_images] comes from an [img] element
    of the document, its URL is that element's [src] and is not empty, and
    its alt text is the element's [alt], or ["Image"] when it has none. *)
Theorem extract_images_pairs_sound (self : PyWebScraper) (alt u : string) :
  (alt, u) ∈ extract_images self ->
  u <> ""
  /\ exists img,
      img ∈ descendants (_soup self) /\ has_name "img" img = true
      /\ get img "src" = Some u /\ alt = default "Image" (get img "alt").
Proof.
  unfold extract_images, find_all. rewrite extract_images_loop. cbn [app].
  intros Hin. apply list_elem_of_omap in Hin as (img & Himg & Hr).
  apply list_elem_of_filter in Himg as [Hname Hdoc].
  unfold image_reference in Hr.
  destruct (get img "src") as [src|] eqn:Es; [| discriminate].
  destruct src as [|c src]; [discriminate |].
  cbn in Hr. inversion Hr; subst.
  split; [discriminate |]. exists img. auto.
Qed.

Lemma extract_images_pairs_sound_witness :
  "https://x.com/logo.png" <> ""
  /\ exists img,
      img ∈ descendants (_soup page_with_images) /\ has_name "img" img = true
      /\ get img "src" = Some "https://x.com/logo.png"
      /\ "Image" = default "Image" (get img "alt").
Proof.
  apply (extract_images_pairs_sound page_with_images "Image" "https://x.com/logo.png").
  vm_compute. repeat constructor.
Defined.

Lemma invalid_url_dec (net : Net) (u : string) : invalid_url net u \/ ~ invalid_url net u.
Proof.
  destruct (validate_url_cases net u empty_world) as [(H & _) | (H & _)]; auto.
Qed.

Lemma all_valid_or_some_invalid (net : Net) (l : list (string * string)) :
  Forall (fun p => ~ invalid_url net (snd p)) l
  \/ exists alt u, (alt, u) ∈ l /\ invalid_url net u.
Proof.
  induction l as [|[alt u] l [IH | (alt' & u' & Hin & Hi)]].
  - left. constructor.
  - destruct (invalid_url_dec net u) as [Hi | Hv].
    + right. exists alt, u. split; [apply elem_of_cons; now left | exact Hi].
    + left. now constructor.
  - right. exists alt', u'. split; [apply elem_of_cons; now right | exact Hi].
Qed.

(** When every URL is valid the comprehension returns one object per pair,
    in order, after probes only. *)
Lemma mapM_init_returns (net : Net) (l : list (string * string)) (w : World) :
  Forall (fun p => ~ invalid_url net (snd p)) l ->
  exists w',
    mapM (fun '(alt, u) => ImageContent_init net u alt) l w
    = (Returns ((fun p => {| url := snd p; alt_text := fst p; local_path := None |})
                  <$> l), w')
    /\ only_probes w w'.
Proof.
  intros H. revert w. induction H as [|[alt u] l Hv _ IH]; intros w.
  - exists w. split; [reflexivity | apply only_probes_refl].
  - cbn [mapM]. unfold bind at 1.
    destruct (ImageContent_init_cases net u alt w) as [(Hi & _) | (_ & Hr)];
      [contradiction |].
    rewrite Hr. destruct (IH (log (EvHead u) w)) as (w' & Hm & Hp).
    exists w'. split.
    + unfold bind. now rewrite Hm.
    + eapply only_probes_trans; [apply only_probes_head | exact Hp].
Qed.

Lemma mapM_init_urls (net : Net) (l : list (string * string))
    (images : list ImageContent) (w w' : World) :
  mapM (fun '(alt, u) => ImageContent_init net u alt) l w = (Returns images, w') ->
  images = (fun p => {| url := snd p; alt_text := fst p; local_path := None |}) <$> l.
Proof.
  intros H.
  destruct (all_valid_or_some_invalid net l) as [Hall | Hex].
  - destruct (mapM_init_returns net l w Hall) as (w2 & Hm & _). congruence.
  - destruct (mapM_init_raises net l w Hex) as (why & w2 & Hm & _). congruence.
Qed.

(** X6: with no cached list, [get_images] returns exactly when every
    discovered URL is valid.  What it returns is one object per discovered
    pair, in document order, none with a local path; the list is stored in
    [_images]; and only reachability probes were sent. *)
Theorem get_images_uncached (net : Net) (self : PyWebScraper) (w : World) :
  _images self = None ->
  ((exists r w', get_images net self w = (Returns r, w'))
   <-> Forall (fun p => ~ invalid_url net (snd p)) (extract_images self))
  /\ (forall self' images w',
      get_images net self w = (Returns (self', images), w') ->
      images = (fun p => {| url := snd p; alt_text := fst p; local_path := None |})
                 <$> extract_images self
      /\ self' = set_images self images
      /\ only_probes w w').
Proof.
  intros Hn. unfold get_images. rewrite Hn. split; [split |].
  - intros (r & w' & Hr). apply Forall_forall. intros [alt u] Hin Hinv.
    destruct (mapM_init_raises net (extract_images self) w) as (why & w2 & Hm & _);
      [eauto |].
    unfold bind in Hr. rewrite Hm in Hr. discriminate.
  - intros Hall. destruct (mapM_init_returns net _ w Hall) as (w' & Hm & _).
    unfold bind. rewrite Hm. eauto.
  - intros self' images w' Hr.
    destruct (all_valid_or_some_invalid net (extract_images self)) as [Hall | Hex].
    + destruct (mapM_init_returns net _ w Hall) as (w2 & Hm & Hp).
      unfold bind in Hr. rewrite Hm in Hr. inversion Hr; subst. auto.
    + destruct (mapM_init_raises net (extract_images self) w Hex)
        as (why & w2 & Hm & _).
      unfold bind in Hr. rewrite Hm in Hr. discriminate.
Qed.

Lemma get_images_uncached_witness :
  exists r w', get_images net_all_ok page_two_images empty_world = (Returns r, w').
Proof.
  apply (proj2 (proj1 (get_images_uncached net_all_ok page_two_images empty_world
                         eq_refl))).
  assert (E : extract_images page_two_images
              = [("A", "https://x.com/a.png"); ("B", "https://x.com/b.png")])
    by (vm_compute; reflexivity).
  rewrite E.
  repeat constructor; intros [H | [[_ H] | H]]; vm_compute in H; discriminate H.
Defined.

(** X7: once [get_images] has returned, the list it returned is cached:
    every later call, in any state of the world, returns the same objects
    and sends nothing. *)
Theorem get_images_cached (net : Net) (self self' : PyWebScraper)
    (images : list ImageContent) (w w' : World) :
  get_images net self w = (Returns (self', images), w') ->
  _images self' = Some images
  /\ forall w2, get_images net self' w2 = (Returns (self', images), w2).
Proof.
  unfold get_images at 1. destruct (_images self) as [cached|] eqn:Ec.
  - intros [= <- <- <-]. split; [exact Ec |].
    intros w2. unfold get_images. now rewrite Ec.
  - unfold bind.
    destruct (mapM _ (extract_images self) w) as [[l|e] w1]; [| discriminate].
    intros [= <- <- <-]. split; [reflexivity |].
    intros w2. reflexivity.
Qed.

Lemma get_images_cached_witness :
  _images page_saved
  = Some [ {| url := "https://x.com/a/b.png?s=1"; alt_text := "A";
              local_path := Some "out/images/a/b.png" |} ]
  /\ forall w2,
      get_images net_all_ok page_saved w2
      = (Returns (page_saved,
                  [ {| url := "https://x.com/a/b.png?s=1"; alt_text := "A";
                       local_path := Some "out/images/a/b.png" |} ]), w2).
Proof.
  apply (get_images_cached net_all_ok page_saved page_saved _ empty_world empty_world).
  reflexivity.
Defined.

(** ** Further properties: saving an image *)

Lemma makedirs_returns (p : string) (w w1 : World) (r : unit) :
  makedirs p w = (Returns r, w1) ->
  files w1 = files w /\ trace w1 = trace w /\ dirs w ⊆ dirs w1 /\ p ∈ dirs w1.
Proof.
  unfold makedirs. destruct (negb (PyStr.truthy p)); [discriminate |].
  destruct (existsb _ _); [discriminate |].
  intros [= _ <-]. cbn. repeat split; set_solver.
Qed.

Lemma open_wb_returns (p : string) (w w1 : World) (r : unit) :
  open_wb p w = (Returns r, w1) ->
  PyStr.truthy p = true /\ PyStr.endswith_char "/" p = false
  /\ files w1 = <[p := ""]> (files w) /\ dirs w1 = dirs w /\ trace w1 = trace w.
Proof.
  unfold open_wb. destruct (PyStr.truthy p); [| discriminate].
  destruct (PyStr.endswith_char "/" p); [discriminate |].
  destruct (is_dir w p); [discriminate |]. cbn [negb orb].
  destruct (_ && _); [discriminate |].
  intros [= _ <-]. cbn. auto.
Qed.

(** Everything a returning [save] has done. *)
Lemma save_returns (net : Net) (image image' : ImageContent) (path p : string)
    (use_subdirectories : bool) (w w' : World) :
  save net image path use_subdirectories w = (Returns (p, image'), w') ->
  p = OsPath.join path
        (if use_subdirectories then get_filepath image else get_filename image)
  /\ image' = {| url := url image; alt_text := alt_text image; local_path := Some p |}
  /\ PyStr.truthy p = true
  /\ (exists st body,
        net_get net (url image) = Response st body
        /\ download_fails net (url image) = false
        /\ files w' = <[p := body]> (files w))
  /\ trace w' = trace w ++ [EvGet (url image)]
  /\ dirs w ⊆ dirs w'.
Proof.
  unfold save.
  set (full_path := OsPath.join path _).
  unfold bind at 1.
  destruct ((if negb (path_exists w (OsPath.dirname full_path))
             then makedirs (OsPath.dirname full_path) w else ret tt w))
    as [[r1|e] w1] eqn:E1; [| discriminate].
  assert (H1 : files w1 = files w /\ trace w1 = trace w /\ dirs w ⊆ dirs w1).
  { destruct (negb _).
    - apply makedirs_returns in E1. tauto.
    - inversion E1; subst. auto. }
  destruct H1 as (Hf1 & Ht1 & Hd1).
  unfold bind at 1.
  destruct (fetch_outcome net (url image) w1) as (data & Hdl & Hnone & Hbody).
  change (_fetch_html net (url image) w1) with (_download net image w1) in Hdl.
  rewrite Hdl. unfold bind at 1.
  destruct (open_wb full_path (log (EvGet (url image)) w1)) as [[r2|e] w2] eqn:E2;
    [| discriminate].
  apply open_wb_returns in E2 as (Htr & _ & Hf2 & Hd2 & Ht2).
  unfold bind at 1, file_write.
  destruct data as [body|]; [| discriminate].
  unfold ret. intros [= <- <- <-].
  destruct (Hbody body eq_refl) as (st & Hget).
  repeat split; auto.
  - exists st, body. repeat split; [exact Hget | |].
    + destruct (download_fails net (url image)); [| reflexivity].
      discriminate (proj2 Hnone eq_refl).
    + cbn. rewrite Hf2. cbn. rewrite Hf1. apply insert_insert_eq.
  - cbn. rewrite Ht2. cbn. now rewrite Ht1.
  - cbn. rewrite Hd2. exact Hd1.
Qed.

(** X8: when [save] returns a path, that path is the directory joined with
    the name derived from the URL, it is what [local_path] now holds, the
    file there contains exactly the body of the one GET that was sent (which
    did not fail), and no other file has changed. *)
Theorem save_writes_downloaded_bytes (net : Net) (image image' : ImageContent)
    (path p : string) (use_subdirectories : bool) (w w' : World) :
  save net image path use_subdirectories w = (Returns (p, image'), w') ->
  p = OsPath.join path
        (if use_subdirectories then get_filepath image else get_filename image)
  /\ local_path image' = Some p /\ url image' = url image
  /\ alt_text image' = alt_text image
  /\ (exists st body,
        net_get net (url image) = Response st body
        /\ download_fails net (url image) = false
        /\ files w' !! p = Some body)
  /\ (forall k, k <> p -> files w' !! k = files w !! k)
  /\ trace w' = trace w ++ [EvGet (url image)].
Proof.
  intros H. apply save_returns in H
    as (Hp & Hi & _ & (st & body & Hg & Hd & Hf) & Ht & _).
  subst image'. cbn. repeat split; auto.
  - exists st, body. repeat split; auto. rewrite Hf. apply lookup_insert_eq.
  - intros k Hk. rewrite Hf. now apply lookup_insert_ne.
Qed.

Lemma save_writes_downloaded_bytes_witness :
  let image := {| url := "https://x.com/a/b.png?s=1"; alt_text := "A";
                  local_path := None |} in
  let w' := snd (save net_all_ok image "out/images" true empty_world) in
  "out/images/a/b.png" = OsPath.join "out/images" (get_filepath image)
  /\ Some "out/images/a/b.png" = Some "out/images/a/b.png"
  /\ "https://x.com/a/b.png?s=1" = url image
  /\ "A" = alt_text image
  /\ (exists st body,
        net_get net_all_ok (url image) = Response st body
        /\ download_fails net_all_ok (url image) = false
        /\ files w' !! "out/images/a/b.png" = Some body)
  /\ (forall k, k <> "out/images/a/b.png" -> files w' !! k = files empty_world !! k)
  /\ trace w' = trace empty_world ++ [EvGet (url image)].
Proof.
  apply (save_writes_downloaded_bytes net_all_ok
           {| url := "https://x.com/a/b.png?s=1"; alt_text := "A"; local_path := None |}
           {| url := "https://x.com/a/b.png?s=1"; alt_text := "A";
              local_path := Some "out/images/a/b.png" |}
           "out/images" "out/images/a/b.png" true empty_world).
  vm_compute. reflexivity.
Defined.

Lemma join_empty_name (path : string) :
  PyStr.truthy (OsPath.join path "") = false
  \/ PyStr.endswith_char "/" (OsPath.join path "") = true.
Proof.
  unfold OsPath.join. cbn [PyStr.startswith].
  destruct path as [|c path]; [now left |]. cbn [PyStr.truthy negb orb].
  destruct (PyStr.endswith_char "/" (String c path)) eqn:E.
  - right. now rewrite string_app_nil_r.
  - right. apply endswith_char_snoc.
Qed.

(** X9: when the name derived from the URL is empty (flat mode and a URL
    ending in ['/'], or subdirectory mode and a URL without a path), [save]
    raises [OSError]: the target is the directory itself.  No file is
    created or changed and [local_path] is not set. *)
Theorem save_raises_without_file_name (net : Net) (image : ImageContent)
    (path : string) (use_subdirectories : bool) (w : World) :
  (if use_subdirectories then get_filepath image else get_filename image) = "" ->
  exists w', save net image path use_subdirectories w = (Raises OSError, w')
             /\ files w' = files w.
Proof.
  intros Hname. unfold save. rewrite Hname.
  set (full_path := OsPath.join path "").
  unfold bind at 1.
  destruct ((if negb (path_exists w (OsPath.dirname full_path))
             then makedirs (OsPath.dirname full_path) w else ret tt w))
    as [[r1|e] w1] eqn:E1.
  - assert (Hf1 : files w1 = files w).
    { destruct (negb _).
      - apply makedirs_returns in E1. tauto.
      - now inversion E1. }
    unfold bind at 1.
    destruct (fetch_outcome net (url image) w1) as (data & Hdl & _).
    change (_fetch_html net (url image) w1) with (_download net image w1) in Hdl.
    rewrite Hdl. unfold bind at 1, open_wb.
    destruct (join_empty_name path) as [Ht | He]; fold full_path in Ht || fold full_path in He.
    + rewrite Ht. cbn. eauto.
    + rewrite He. rewrite orb_true_r. cbn. eauto.
  - destruct (negb _); [| discriminate].
    unfold makedirs in E1.
    destruct (negb (PyStr.truthy _)); [inversion E1; subst; eauto |].
    destruct (existsb _ _); [inversion E1; subst; eauto | discriminate].
Qed.

Lemma save_raises_without_file_name_witness :
  exists w',
    save net_all_ok {| url := "https://x.com/"; alt_text := ""; local_path := None |}
      "out/images" false empty_world = (Raises OSError, w')
    /\ files w' = files empty_world.
Proof.
  apply (save_raises_without_file_name net_all_ok
           {| url := "https://x.com/"; alt_text := ""; local_path := None |}
           "out/images" false empty_world).
  reflexivity.
Defined.

(** ** Further properties: the two file names of an image *)

Lemma occurs_app (c : ascii) (a b : string) :
  PyStr.occurs c (a +:+ b) = PyStr.occurs c a || PyStr.occurs c b.
Proof.
  induction a as [|x a IH]; [reflexivity |].
  rewrite string_app_cons. cbn [PyStr.occurs].
  destruct (Ascii.eqb x c); [reflexivity | exact IH].
Qed.

Lemma split_free (c : ascii) (s : string) :
  PyStr.occurs c s = false -> PyStr.split c s = [s].
Proof.
  induction s as [|x s IH]; [reflexivity |]. cbn.
  destruct (Ascii.eqb x c); [discriminate |]. intros H. now rewrite IH.
Qed.

Lemma split_app_sep_str (c : ascii) (a b : string) :
  PyStr.occurs c a = false ->
  PyStr.split c (a +:+ String c "" +:+ b) = a :: PyStr.split c b.
Proof. exact (split_app_sep c a b). Qed.

(** The first segment, given a decomposition. *)
Lemma split_head_eq (c : ascii) (p q : string) :
  PyStr.occurs c p = false ->
  q = "" \/ PyStr.startswith (String c "") q = true ->
  head (PyStr.split c (p +:+ q)) = Some p.
Proof.
  intros Hp Hq. induction p as [|x p IH].
  - rewrite string_app_nil_l. destruct Hq as [-> | Hq]; [reflexivity |].
    destruct q as [|y q]; [discriminate |]. cbn in Hq |- *.
    destruct (Ascii.eqb_spec c y) as [<- | ]; [| discriminate].
    now rewrite Ascii.eqb_refl.
  - rewrite string_app_cons. cbn in Hp |- *.
    destruct (Ascii.eqb x c); [discriminate |].
    specialize (IH Hp).
    destruct (PyStr.split c (p +:+ q)) as [|seg segs]; [discriminate |].
    cbn in IH |- *. now inversion IH.
Qed.

(** The last segment, given a decomposition. *)
Lemma split_last_eq (c : ascii) (pre seg : string) :
  PyStr.occurs c seg = false ->
  last (PyStr.split c (pre +:+ String c seg)) = Some seg.
Proof.
  intros Hs. induction pre as [|x pre IH].
  - rewrite string_app_nil_l. cbn. rewrite Ascii.eqb_refl.
    now rewrite split_free.
  - rewrite string_app_cons. cbn.
    pose proof (split_segments_free c (pre +:+ String c seg)) as Hfree.
    pose proof (join_split c (pre +:+ String c seg)) as Hjoin.
    destruct (PyStr.split c (pre +:+ String c seg)) as [|seg0 segs] eqn:E;
      [discriminate |].
    assert (Hne : segs <> []).
    { intros ->. cbn in Hjoin. inversion Hfree as [|? ? H0 _]; subst.
      rewrite occurs_app in H0. cbn in H0. rewrite Ascii.eqb_refl in H0.
      now rewrite orb_true_r in H0. }
    destruct (Ascii.eqb x c).
    + rewrite last_cons. now rewrite IH.
    + rewrite last_cons in IH |- *.
      destruct (last segs) eqn:El; [exact IH |].
      apply last_None in El. contradiction.
Qed.

Lemma endswith_char_inv (c : ascii) (s : string) :
  PyStr.endswith_char c s = true -> exists s', s = s' +:+ String c "".
Proof.
  induction s as [|x s IH]; [discriminate |]. cbn.
  destruct s as [|y s].
  - intros H. apply Ascii.eqb_eq in H as ->. now exists "".
  - intros H. destruct (IH H) as (s' & ->). now exists (String x s').
Qed.

(** X10: for a URL [s0/s1/s2/dir-part ++ file ++ query] whose query (empty,
    or starting with ['?']) holds no ['/'], the two derived names agree:
    [get_filepath] is the directory part followed by the file name, and
    [get_filename] is that file name. *)
Theorem flat_name_is_last_of_path (image : ImageContent)
    (s0 s1 s2 d f q : string) :
  url image = s0 +:+ "/" +:+ s1 +:+ "/" +:+ s2 +:+ "/" +:+ d +:+ f +:+ q ->
  PyStr.occurs "/" s0 = false -> PyStr.occurs "/" s1 = false ->
  PyStr.occurs "/" s2 = false ->
  d = "" \/ PyStr.endswith_char "/" d = true ->
  PyStr.occurs "/" f = false ->
  PyStr.occurs "?" d = false -> PyStr.occurs "?" f = false ->
  q = "" \/ PyStr.startswith "?" q = true ->
  PyStr.occurs "/" q = false ->
  get_filepath image = d +:+ f /\ get_filename image = f.
Proof.
  intros Hu H0 H1 H2 Hd Hf Hqd Hqf Hq Hsq. split.
  - unfold get_filepath. rewrite Hu.
    rewrite !split_app_sep_str by assumption. cbn [drop]. rewrite drop_0.
    rewrite join_split. rewrite <- string_app_assoc.
    rewrite split_head_eq; [reflexivity | | exact Hq].
    rewrite occurs_app. now rewrite Hqd, Hqf.
  - unfold get_filename.
    assert (Hfq : PyStr.occurs "/" (f +:+ q) = false)
      by (rewrite occurs_app; now rewrite Hf, Hsq).
    assert (Hl : last (PyStr.split "/" (url image)) = Some (f +:+ q)).
    { rewrite Hu. destruct Hd as [-> | He].
      - rewrite string_app_nil_l.
        replace (s0 +:+ "/" +:+ s1 +:+ "/" +:+ s2 +:+ "/" +:+ f +:+ q)
          with ((s0 +:+ "/" +:+ s1 +:+ "/" +:+ s2) +:+ String "/" (f +:+ q))
          by (now rewrite !string_app_assoc).
        now apply split_last_eq.
      - apply endswith_char_inv in He as (d' & ->).
        replace (s0 +:+ "/" +:+ s1 +:+ "/" +:+ s2 +:+ "/"
                 +:+ (d' +:+ "/") +:+ f +:+ q)
          with ((s0 +:+ "/" +:+ s1 +:+ "/" +:+ s2 +:+ "/" +:+ d')
                +:+ String "/" (f +:+ q))
          by (now rewrite !string_app_assoc).
        now apply split_last_eq. }
    rewrite Hl. change (default "" (Some (f +:+ q))) with (f +:+ q).
    rewrite split_head_eq; [reflexivity | exact Hqf | exact Hq].
Qed.

Lemma flat_name_is_last_of_path_witness :
  let image := {| url := "https://example.com/many/dir/image.jpg?size=large";
                  alt_text := ""; local_path := None |} in
  get_filepath image = "many/dir/" +:+ "image.jpg"
  /\ get_filename image = "image.jpg".
Proof.
  apply (flat_name_is_last_of_path
           {| url := "https://example.com/many/dir/image.jpg?size=large";
              alt_text := ""; local_path := None |}
           "https:" "" "example.com" "many/dir/" "image.jpg" "?size=large");
    try reflexivity; now right.
Defined.

Lemma get_filename_no_slash (image : ImageContent) :
  PyStr.occurs "/" (get_filename image) = false.
Proof.
  unfold get_filename.
  destruct (split_last "/" (url image)) as (pre & seg & Hl & _ & _ & Hs).
  destruct (split_head "?" seg) as (h & q & Hh & Hq & _ & _).
  rewrite Hl. change (default "" (Some seg)) with seg. rewrite Hh.
  change (default "" (Some h)) with h.
  rewrite Hq, occurs_app in Hs. now apply orb_false_elim in Hs as [? _].
Qed.

Lemma startswith_sep_free (s : string) :
  PyStr.occurs "/" s = false -> PyStr.startswith "/" s = false.
Proof.
  destruct s as [|x s]; [reflexivity |].
  cbn [PyStr.startswith PyStr.occurs]. rewrite (Ascii.eqb_sym "/" x).
  destruct (Ascii.eqb x "/"); [discriminate | reflexivity].
Qed.

Lemma head_with_sep_free (b : string) :
  PyStr.occurs "/" b = false -> OsPath.head_with_sep b = "".
Proof. destruct b as [|x b]; [reflexivity |]. cbn [OsPath.head_with_sep]. now intros ->. Qed.

Lemma head_with_sep_app (a b : string) :
  PyStr.occurs "/" b = false ->
  OsPath.head_with_sep (a +:+ String "/" b) = a +:+ "/".
Proof.
  intros Hb. induction a as [|x a IH].
  - rewrite !string_app_nil_l. cbn. now rewrite head_with_sep_free.
  - rewrite !string_app_cons. cbn [OsPath.head_with_sep].
    replace (PyStr.occurs "/" (String x (a +:+ String "/" b))) with true.
    + now rewrite IH.
    + cbn [PyStr.occurs]. destruct (Ascii.eqb x "/"); [reflexivity |].
      rewrite occurs_app. cbn. now rewrite orb_true_r.
Qed.

Lemma rstrip_sep_snoc (a : string) :
  PyStr.truthy a = true -> PyStr.endswith_char "/" a = false ->
  OsPath.rstrip_sep (a +:+ "/") = a.
Proof.
  induction a as [|x a IH]; [discriminate |]. intros _ He.
  rewrite string_app_cons. cbn [OsPath.rstrip_sep].
  destruct a as [|y a].
  - cbn in He |- *. now rewrite He.
  - rewrite IH; [reflexivity | reflexivity | exact He].
Qed.

(** X11: in flat mode the target of [save] lies directly in the directory
    given: for a non-empty directory path with no trailing ['/'], the
    directory part of the target path is that directory, whatever the
    URL. *)
Theorem flat_target_directory (image : ImageContent) (path : string) :
  PyStr.truthy path = true -> PyStr.endswith_char "/" path = false ->
  OsPath.join path (get_filename image) = path +:+ "/" +:+ get_filename image
  /\ OsPath.dirname (OsPath.join path (get_filename image)) = path.
Proof.
  intros Ht He.
  pose proof (get_filename_no_slash image) as Hn.
  assert (Hj : OsPath.join path (get_filename image)
               = path +:+ "/" +:+ get_filename image).
  { unfold OsPath.join. rewrite Ht, He. cbn [negb orb].
    now rewrite startswith_sep_free. }
  split; [exact Hj |]. rewrite Hj. unfold OsPath.dirname.
  change (path +:+ "/" +:+ get_filename image)
    with (path +:+ String "/" (get_filename image)).
  rewrite head_with_sep_app by exact Hn.
  rewrite rstrip_sep_snoc by assumption.
  destruct path; [discriminate | reflexivity].
Qed.

Lemma flat_target_directory_witness :
  let image := {| url := "https://x.com/a/b.png?s=1"; alt_text := "A";
                  local_path := None |} in
  OsPath.join "out/images" (get_filename image)
  = "out/images" +:+ "/" +:+ get_filename image
  /\ OsPath.dirname (OsPath.join "out/images" (get_filename image)) = "out/images".
Proof.
  apply (flat_target_directory
           {| url := "https://x.com/a/b.png?s=1"; alt_text := "A"; local_path := None |}
           "out/images"); reflexivity.
Defined.

(** ** Further properties: rewriting the content *)

(** What a returning loop has established. *)
Lemma process_loop_returns (net : Net) (path save_path : string) (flatten_images : bool)
    (images images' : list ImageContent) (content c : string) (w w' : World) :
  process_loop net path save_path flatten_images images content w
  = (Returns c, images', w') ->
  Forall (fun image => has_local_path image = true) images'
  /\ c = rewrite_all path images' content
  /\ url <$> images' = url <$> images.
Proof.
  revert images' content c w w'.
  induction images as [|image rest IH]; intros images' content c w w' H.
  - inversion H; subst. repeat split. constructor.
  - cbn [process_loop] in H.
    destruct (has_local_path image) eqn:Hl; cbn [negb] in H.
    + unfold has_local_path in Hl.
      destruct (local_path image) as [lp|] eqn:Elp; [| discriminate].
      destruct (process_loop net path save_path flatten_images rest _ w)
        as [[r rest'] w2] eqn:Er.
      inversion H; subst. apply IH in Er as (Hall & Hc & Hu).
      repeat split.
      * constructor; [| exact Hall]. unfold has_local_path. now rewrite Elp.
      * unfold rewrite_all. cbn [fold_left]. rewrite Elp. exact Hc.
      * cbn. now rewrite Hu.
    + destruct (save net image save_path (negb flatten_images) w)
        as [[[p image1]|e] w1] eqn:Es; [| discriminate].
      apply save_returns in Es as (_ & Hi & Htr & _).
      subst image1. cbn [local_path] in H.
      destruct (process_loop net path save_path flatten_images rest _ w1)
        as [[r rest'] w2] eqn:Er.
      inversion H; subst. apply IH in Er as (Hall & Hc & Hu).
      repeat split.
      * constructor; [exact Htr | exact Hall].
      * exact Hc.
      * cbn. now rewrite Hu.
Qed.

(** X12: after [_process_images] has returned once, calling it again with
    the same content returns the same rewritten content and changes
    nothing: every image has a local path by then, so nothing is requested
    and nothing is written. *)
Theorem process_images_repeatable (net : Net) (self self' : PyWebScraper)
    (content c path images_dir_name : string) (flatten_images : bool) (w w' : World) :
  _process_images net self content path images_dir_name flatten_images w
  = (Returns c, self', w') ->
  (exists images, _images self' = Some images
                  /\ Forall (fun image => has_local_path image = true) images)
  /\ _process_images net self' content path images_dir_name flatten_images w'
     = (Returns c, self', w').
Proof.
  unfold _process_images at 1.
  destruct (get_images net self w) as [[[self1 images]|e] w1] eqn:Eg; [| discriminate].
  destruct (process_loop net path _ flatten_images images content w1)
    as [[r images'] w2] eqn:El.
  intros [= -> <- <-].
  apply process_loop_returns in El as (Hall & Hc & _).
  split; [exists images'; split; [reflexivity | exact Hall] |].
  unfold _process_images, get_images. cbn [_images set_images]. unfold ret.
  rewrite process_loop_saved by exact Hall.
  rewrite <- Hc. now rewrite set_images_same.
Qed.

Lemma process_images_repeatable_witness :
  let run := _process_images net_all_ok page_one_img
               "![A](https://x.com/a/b.png?s=1)" "out" "images" false empty_world in
  (exists images, _images (snd (fst run)) = Some images
                  /\ Forall (fun image => has_local_path image = true) images)
  /\ _process_images net_all_ok (snd (fst run))
       "![A](https://x.com/a/b.png?s=1)" "out" "images" false (snd run)
     = (Returns "![A](/images/a/b.png)", snd (fst run), snd run).
Proof.
  intros run.
  apply (process_images_repeatable net_all_ok page_one_img (snd (fst run))
           "![A](https://x.com/a/b.png?s=1)" "![A](/images/a/b.png)"
           "out" "images" false empty_world (snd run)).
  vm_compute. reflexivity.
Defined.

Lemma replace_scan_absent (old new s : string) :
  contains old s = false -> PyStr.replace_scan old new 0 s = s.
Proof.
  induction s as [|c s IH]; [reflexivity |].
  cbn [contains PyStr.replace_scan]. intros H.
  apply orb_false_elim in H as [Hs Hc]. rewrite Hs. now rewrite IH.
Qed.

(** Replacing a text that does not occur changes nothing. *)
Lemma replace_absent (s old new : string) :
  contains old s = false -> PyStr.replace s old new = s.
Proof.
  destruct old as [|c old].
  - intros H. destruct s; discriminate H.
  - intros H. now apply replace_scan_absent.
Qed.

Lemma rewrite_all_absent (path : string) (images : list ImageContent) (content : string) :
  Forall (fun image => contains (url image) content = false) images ->
  rewrite_all path images content = content.
Proof.
  unfold rewrite_all. induction 1 as [|image images Hi _ IH]; [reflexivity |].
  cbn [fold_left]. rewrite replace_absent by exact Hi. exact IH.
Qed.

(** Files and requests only accumulate along the loop, and every image
    that entered it without a local path leaves it saved. *)
Lemma process_loop_saves (net : Net) (path save_path : string) (flatten_images : bool)
    (images images' : list ImageContent) (content c : string) (w w' : World) :
  process_loop net path save_path flatten_images images content w
  = (Returns c, images', w') ->
  (forall k, is_Some (files w !! k) -> is_Some (files w' !! k))
  /\ (forall e, e ∈ trace w -> e ∈ trace w')
  /\ (Forall (fun i => has_local_path i = false) images ->
      Forall (fun i => (exists p, local_path i = Some p /\ is_Some (files w' !! p))
                       /\ EvGet (url i) ∈ trace w') images').
Proof.
  revert images' content c w w'.
  induction images as [|image rest IH]; intros images' content c w w' H.
  - inversion H; subst. repeat split; auto.
  - cbn [process_loop] in H.
    destruct (has_local_path image) eqn:Hl; cbn [negb] in H.
    + unfold has_local_path in Hl.
      destruct (local_path image) as [lp|] eqn:Elp; [| discriminate].
      destruct (process_loop net path save_path flatten_images rest _ w)
        as [[r rest'] w2] eqn:Er.
      inversion H; subst. apply IH in Er as (Hf & Ht & _).
      repeat split; auto.
      intros Hall. inversion Hall as [|? ? Hbad _]; subst.
      unfold has_local_path in Hbad. rewrite Elp, Hl in Hbad. discriminate.
    + destruct (save net image save_path (negb flatten_images) w)
        as [[[p image1]|e] w1] eqn:Es; [| discriminate].
      apply save_returns in Es as (_ & Hi & _ & (st & body & _ & _ & Hf1) & Ht1 & _).
      subst image1. cbn [local_path] in H.
      destruct (process_loop net path save_path flatten_images rest _ w1)
        as [[r rest'] w2] eqn:Er.
      inversion H; subst. apply IH in Er as (Hf & Ht & Hsaved).
      assert (Hfiles : forall k, is_Some (files w !! k) -> is_Some (files w1 !! k)).
      { intros k Hk. rewrite Hf1. destruct (decide (p = k)) as [<- | Hne].
        - rewrite lookup_insert_eq. eauto.
        - now rewrite lookup_insert_ne. }
      assert (Htrace : forall e, e ∈ trace w -> e ∈ trace w1).
      { intros e He. rewrite Ht1. apply elem_of_app. now left. }
      repeat split; auto.
      intros Hall. inversion Hall as [|? ? _ Hrest]; subst.
      constructor; [| now apply Hsaved].
      cbn [local_path url]. split.
      * exists p. split; [reflexivity |]. apply Hf. rewrite Hf1, lookup_insert_eq. eauto.
      * apply Ht. rewrite Ht1. apply elem_of_app. right. apply list_elem_of_singleton.
        reflexivity.
Qed.

(** X13: when [_process_images] returns and no image URL occurs in the
    content it was given (as happens when the renderer has altered the
    URLs), the content comes back unchanged; yet the images have been
    saved: every image of the list has a local path afterwards, and when the
    list was not cached before, there is one image per discovered URL, a GET
    was sent for each, and a file exists at each local path. *)
Theorem process_images_without_occurrence (net : Net) (self self' : PyWebScraper)
    (content c path images_dir_name : string) (flatten_images : bool) (w w' : World) :
  _process_images net self content path images_dir_name flatten_images w
  = (Returns c, self', w') ->
  (forall image, image ∈ default [] (_images self') ->
                 contains (url image) content = false) ->
  c = content
  /\ exists images,
      _images self' = Some images
      /\ Forall (fun i => has_local_path i = true) images
      /\ (_images self = None ->
          url <$> images = snd <$> extract_images self
          /\ Forall (fun i => (exists p, local_path i = Some p
                                        /\ is_Some (files w' !! p))
                              /\ EvGet (url i) ∈ trace w') images).
Proof.
  unfold _process_images.
  destruct (get_images net self w) as [[[self1 images]|e] w1] eqn:Eg; [| discriminate].
  destruct (process_loop net path _ flatten_images images content w1)
    as [[r images'] w2] eqn:El.
  intros [= -> <- <-] Habs. cbn in Habs.
  pose proof (process_loop_saves _ _ _ _ _ _ _ _ _ _ El) as (_ & _ & Hsaved).
  apply process_loop_returns in El as (Hall & -> & Hurls).
  split.
  - apply rewrite_all_absent. apply Forall_forall. intros image Hin. now apply Habs.
  - exists images'. split; [reflexivity |]. split; [exact Hall |].
    intros Hnone. unfold get_images in Eg. rewrite Hnone in Eg. unfold bind in Eg.
    destruct (mapM _ (extract_images self) w) as [[l|e] w0] eqn:Em; [| discriminate].
    inversion Eg; subst. apply mapM_init_urls in Em. subst images. split.
    + rewrite Hurls. rewrite <- list_fmap_compose. reflexivity.
    + apply Hsaved. apply Forall_fmap. apply Forall_forall. intros pr _. reflexivity.
Qed.

Lemma process_images_without_occurrence_witness :
  let run := _process_images net_all_ok page_one_img
               "![A](https://x.com/a/b.png%3Fs=1)" "out" "images" false empty_world in
  let c := match fst (fst run) with Returns c => c | Raises _ => "" end in
  c = "![A](https://x.com/a/b.png%3Fs=1)"
  /\ exists images,
      _images (snd (fst run)) = Some images
      /\ Forall (fun i => has_local_path i = true) images
      /\ (_images page_one_img = None ->
          url <$> images = snd <$> extract_images page_one_img
          /\ Forall (fun i => (exists p, local_path i = Some p
                                        /\ is_Some (files (snd run) !! p))
                              /\ EvGet (url i) ∈ trace (snd run)) images).
Proof.
  intros run c.
  apply (process_images_without_occurrence net_all_ok page_one_img (snd (fst run))
           "![A](https://x.com/a/b.png%3Fs=1)" c "out" "images" false empty_world
           (snd run)).
  - vm_compute. reflexivity.
  - intros image Hin. vm_compute in Hin.
    apply list_elem_of_singleton in Hin. subst image. reflexivity.
Defined.

Lemma replace_scan_skip (old new a s : string) :
  PyStr.replace_scan old new (String.length a) (a +:+ s)
  = PyStr.replace_scan old new 0 s.
Proof.
  induction a as [|x a IH]; [reflexivity |].
  rewrite string_app_cons. cbn [String.length PyStr.replace_scan]. exact IH.
Qed.

Lemma startswith_app (p r : string) : PyStr.startswith p (p +:+ r) = true.
Proof.
  induction p as [|x p IH]; [reflexivity |].
  rewrite string_app_cons. cbn [PyStr.startswith]. now rewrite Ascii.eqb_refl.
Qed.

(** Removing a non-empty prefix that does not occur in what follows leaves
    what follows. *)
Lemma replace_prefix_once (p r : string) :
  PyStr.truthy p = true -> contains p r = false ->
  PyStr.replace (p +:+ r) p "" = r.
Proof.
  destruct p as [|x p]; [discriminate |]. intros _ Hc.
  unfold PyStr.replace. rewrite string_app_cons. cbn [PyStr.replace_scan].
  rewrite <- string_app_cons. rewrite startswith_app. rewrite string_app_nil_l.
  cbn [String.length]. rewrite Nat.sub_succ, Nat.sub_0_r.
  rewrite replace_scan_skip. now apply replace_scan_absent.
Qed.

Lemma string_length_app (a b : string) :
  String.length (a +:+ b) = String.length a + String.length b.
Proof.
  induction a as [|x a IH]; [reflexivity |].
  rewrite string_app_cons. cbn [String.length]. now rewrite IH.
Qed.

Lemma substring_all (r : string) : String.substring 0 (String.length r) r = r.
Proof. induction r as [|x r IH]; [reflexivity |]. cbn. now rewrite IH. Qed.

Lemma substring_after (p r : string) (m : nat) :
  String.substring (String.length p) m (p +:+ r) = String.substring 0 m r.
Proof.
  induction p as [|x p IH]; [reflexivity |].
  rewrite string_app_cons. cbn [String.length String.substring]. exact IH.
Qed.

(** X14: for an image already saved at [path ++ rest], where [path] is the
    non-empty output directory and does not occur in [rest], the loop of
    [_process_images] replaces the image URL by [rest], the local path
    relative to the output directory, and touches nothing else. *)
Theorem process_loop_relative_reference (net : Net) (path save_path rest : string)
    (flatten_images : bool) (image : ImageContent) (content : string) (w : World) :
  local_path image = Some (path +:+ rest) ->
  PyStr.truthy path = true ->
  contains path rest = false ->
  process_loop net path save_path flatten_images [image] content w
  = (Returns (PyStr.replace content (url image) rest), [image], w)
  /\ strip_front path (path +:+ rest) = rest.
Proof.
  intros Hl Ht Hc. split.
  - cbn [process_loop]. unfold has_local_path. rewrite Hl.
    replace (PyStr.truthy (path +:+ rest)) with true
      by (destruct path; [discriminate | reflexivity]).
    cbn [negb]. rewrite Hl. now rewrite replace_prefix_once.
  - unfold strip_front. rewrite startswith_app.
    rewrite substring_after, string_length_app.
    replace (String.length path + String.length rest - String.length path)
      with (String.length rest) by lia.
    apply substring_all.
Qed.

Lemma process_loop_relative_reference_witness :
  process_loop net_all_ok "out" "out/images" false
    [ {| url := "https://x.com/a/b.png?s=1"; alt_text := "A";
         local_path := Some ("out" +:+ "/images/a/b.png") |} ]
    "![A](https://x.com/a/b.png?s=1)" empty_world
  = (Returns (PyStr.replace "![A](https://x.com/a/b.png?s=1)"
                "https://x.com/a/b.png?s=1" "/images/a/b.png"),
     [ {| url := "https://x.com/a/b.png?s=1"; alt_text := "A";
          local_path := Some ("out" +:+ "/images/a/b.png") |} ], empty_world)
  /\ strip_front "out" ("out" +:+ "/images/a/b.png") = "/images/a/b.png".
Proof.
  apply (process_loop_relative_reference net_all_ok "out" "out/images"
           "/images/a/b.png" false
           {| url := "https://x.com/a/b.png?s=1"; alt_text := "A";
              local_path := Some ("out" +:+ "/images/a/b.png") |});
    reflexivity.
Defined.

(** ** Further properties: rendering and writing the page *)

(** X15: for a document with no [article], no content [div] and no [body],
    [get_content_html] returns the four characters ["None"] (the text of
    Python's [None]) and [get_content_markdown] hands that text to the
    Markdown renderer; both store [None] in [_content] and raise nothing. *)
Theorem render_without_region (decode : node -> string)
    (markdownify : string -> string -> string) (self : PyWebScraper)
    (heading_style : string) :
  none_in (has_name "article") (descendants (_soup self)) ->
  none_in is_content_div (descendants (_soup self)) ->
  none_in (has_name "body") (descendants (_soup self)) ->
  get_content_html decode self = (set_content self None, "None")
  /\ get_content_markdown decode markdownify self heading_style
     = (set_content self None, markdownify "None" heading_style).
Proof.
  intros Ha Hd Hb. apply first_match_None in Ha, Hd, Hb.
  unfold get_content_html, get_content_markdown, extract_content, find, find_class.
  change (fun n => has_name "div" n && class_matches "content" n) with is_content_div.
  rewrite Ha, Hd, Hb. split; reflexivity.
Qed.

Lemma render_without_region_witness :
  get_content_html (fun _ => "<p>hello</p>") page_fragment
  = (set_content page_fragment None, "None")
  /\ get_content_markdown (fun _ => "<p>hello</p>") (fun html _ => html)
       page_fragment "ATX"
     = (set_content page_fragment None, (fun html _ : string => html) "None" "ATX").
Proof.
  apply (render_without_region (fun _ => "<p>hello</p>") (fun html _ => html)
           page_fragment "ATX"); repeat constructor.
Defined.

Lemma dirname_join_name (path name : string) :
  PyStr.truthy path = true -> PyStr.endswith_char "/" path = false ->
  PyStr.occurs "/" name = false ->
  OsPath.join path name = path +:+ "/" +:+ name
  /\ OsPath.dirname (OsPath.join path name) = path.
Proof.
  intros Ht He Hn.
  assert (Hj : OsPath.join path name = path +:+ "/" +:+ name).
  { unfold OsPath.join. rewrite Ht, He. cbn [negb orb].
    now rewrite startswith_sep_free. }
  split; [exact Hj |]. rewrite Hj. unfold OsPath.dirname.
  change (path +:+ "/" +:+ name) with (path +:+ String "/" name).
  rewrite head_with_sep_app by exact Hn.
  rewrite rstrip_sep_snoc by assumption.
  destruct path; [discriminate | reflexivity].
Qed.

(** X16: [write_to_file] does not create the directory it writes into.  For
    a non-empty [path] without trailing ['/'] and a file name without
    ['/']: when [path] is not an existing directory it raises [OSError] and
    changes nothing; when it is, and the target is a proper file name that
    is not itself a directory, it returns [path/filename] having stored the
    content there and changed no other file and no directory. *)
Theorem write_to_file_needs_directory (content path filename : string) (w : World) :
  PyStr.truthy path = true -> PyStr.endswith_char "/" path = false ->
  PyStr.occurs "/" filename = false ->
  (is_dir w path = false ->
   write_to_file content path filename w = (Raises OSError, w))
  /\ (is_dir w path = true -> PyStr.truthy filename = true ->
      is_dir w (path +:+ "/" +:+ filename) = false ->
      write_to_file content path filename w
      = (Returns (path +:+ "/" +:+ filename),
         {| files := <[path +:+ "/" +:+ filename := content]> (files w);
            dirs := dirs w; trace := trace w |})).
Proof.
  intros Ht He Hn.
  destruct (dirname_join_name path filename Ht He Hn) as (Hj & Hd).
  unfold write_to_file, open_text, bind, open_wb. rewrite Hd, Hj, Ht. split.
  - intros Hdir. rewrite Hdir. cbn [negb andb].
    destruct (_ || _); reflexivity.
  - intros Hdir Hf Hnd. rewrite Hdir, Hnd. cbn [negb andb].
    replace (PyStr.truthy (path +:+ "/" +:+ filename)) with true
      by (destruct path; [discriminate | reflexivity]).
    replace (PyStr.endswith_char "/" (path +:+ "/" +:+ filename)) with false.
    + cbn. now rewrite insert_insert_eq.
    + symmetry. clear -Hf Hn. induction path as [|x path IH].
      * destruct filename as [|c fn]; [discriminate |].
        rewrite string_app_nil_l. change ("/" +:+ String c fn) with (String "/" (String c fn)).
        cbn [PyStr.endswith_char].
        clear Hf. revert c Hn. induction fn as [|d fn IHf]; intros c Hn.
        -- cbn [PyStr.occurs] in Hn. cbn [PyStr.endswith_char].
           destruct (Ascii.eqb c "/"); [discriminate | reflexivity].
        -- cbn [PyStr.endswith_char]. apply IHf. cbn [PyStr.occurs] in Hn.
           destruct (Ascii.eqb c "/"); [discriminate | exact Hn].
      * rewrite string_app_cons. cbn [PyStr.endswith_char].
        destruct (path +:+ "/" +:+ filename) eqn:E; [| exact IH].
        destruct path; discriminate E.
Qed.

Lemma write_to_file_needs_directory_witness :
  write_to_file "# title" "out" "index.md" empty_world = (Raises OSError, empty_world).
Proof.
  apply (proj1 (write_to_file_needs_directory "# title" "out" "index.md" empty_world
                  eq_refl eq_refl eq_refl)).
  reflexivity.
Defined.

(** The stage shared by the two page savers when images are not
    downloaded. *)
Lemma save_rendered_offline (net : Net) (self : PyWebScraper)
    (content path filename images_dir_name : string) (flatten_images : bool)
    (w : World) :
  exists r w',
    save_rendered net (self, content) path filename false images_dir_name
      flatten_images w = (r, self, w')
    /\ trace w' = trace w /\ dirs w' = dirs w
    /\ (forall k, k <> OsPath.join path filename -> files w' !! k = files w !! k)
    /\ (r = Returns tt /\ files w' !! OsPath.join path filename = Some content
        \/ r = Raises OSError /\ w' = w).
Proof.
  unfold save_rendered, write_to_file, open_text, bind.
  destruct (open_wb (OsPath.join path filename) w) as [[[]|e] w1] eqn:Eo.
  - apply open_wb_returns in Eo as (_ & _ & Hf & Hd & Ht).
    eexists _, _. split; [reflexivity |]. cbn. repeat split; auto.
    + intros k Hk. rewrite lookup_insert_ne by congruence.
      rewrite Hf. now apply lookup_insert_ne.
    + left. split; [reflexivity | apply lookup_insert_eq].
  - assert (e = OSError /\ w1 = w) as [-> ->].
    { unfold open_wb in Eo.
      repeat match type of Eo with
             | (if ?c then _ else _) = _ => destruct c
             end; inversion Eo; auto. }
    eexists _, _. split; [reflexivity |]. repeat split; auto.
Qed.

(** X17: with [download_images] and [clear_output_dir] off, [save_markdown]
    and [save_content_html] send no request, create no directory, leave the
    image list alone and touch no file but the target: they either store
    the rendered region there, or raise [OSError] having changed nothing in
    the world. *)
Theorem save_page_offline (net : Net) (decode : node -> string)
    (markdownify : string -> string -> string) (self : PyWebScraper)
    (path filename images_dir_name : string) (flatten_images : bool) (w : World) :
  let region := snd (extract_content self) in
  (exists r w',
      save_content_html net decode self path filename false images_dir_name
        false flatten_images w = (r, set_content self region, w')
      /\ trace w' = trace w /\ dirs w' = dirs w
      /\ (forall k, k <> OsPath.join path filename -> files w' !! k = files w !! k)
      /\ (r = Returns tt
          /\ files w' !! OsPath.join path filename = Some (py_str decode region)
          \/ r = Raises OSError /\ w' = w))
  /\ (exists r w',
      save_markdown net decode markdownify self path filename false images_dir_name
        false flatten_images w = (r, set_content self region, w')
      /\ trace w' = trace w /\ dirs w' = dirs w
      /\ (forall k, k <> OsPath.join path filename -> files w' !! k = files w !! k)
      /\ (r = Returns tt
          /\ files w' !! OsPath.join path filename
             = Some (markdownify (py_str decode region) "ATX")
          \/ r = Raises OSError /\ w' = w)).
Proof.
  cbn zeta. split.
  - unfold save_content_html, get_content_html.
    change (extract_content self)
      with (set_content self (snd (extract_content self)), snd (extract_content self)).
    apply save_rendered_offline.
  - unfold save_markdown, get_content_markdown.
    change (extract_content self)
      with (set_content self (snd (extract_content self)), snd (extract_content self)).
    apply save_rendered_offline.
Qed.







(** ** Further properties: saving all images *)

Lemma save_loop_returns (net : Net) (path : string)
    (images images' : list ImageContent) (w w' : World) (r : unit) :
  save_loop net path images w = (Returns r, images', w') ->
  images' = (fun i => {| url := url i; alt_text := alt_text i;
                         local_path := Some (OsPath.join path (get_filepath i)) |})
              <$> images
  /\ trace w' = trace w ++ (EvGet <$> (url <$> images))
  /\ (forall k, is_Some (files w !! k) -> is_Some (files w' !! k))
  /\ Forall (fun i => is_Some (files w' !! OsPath.join path (get_filepath i))) images.
Proof.
  revert images' w w'. induction images as [|image rest IH]; intros images' w w' H.
  - inversion H; subst. cbn. rewrite app_nil_r. repeat split; auto.
  - cbn [save_loop] in H.
    destruct (save net image path true w) as [[[p image1]|e] w1] eqn:Es;
      [| discriminate].
    destruct (save_loop net path rest w1) as [[r' rest'] w2] eqn:El.
    inversion H; subst.
    apply save_returns in Es as (-> & -> & _ & (st & body & _ & _ & Hf) & Ht & _).
    apply IH in El as (-> & Ht2 & Hkeep & Hall).
    repeat split.
    + rewrite Ht2, Ht. cbn. now rewrite <- app_assoc.
    + intros k Hk. apply Hkeep. rewrite Hf.
      destruct (decide (OsPath.join path (get_filepath image) = k)) as [<- | Hne].
      * rewrite lookup_insert_eq. eauto.
      * now rewrite lookup_insert_ne.
    + constructor; [| exact Hall].
      apply Hkeep. rewrite Hf, lookup_insert_eq. eauto.
Qed.

(** X19: [save_images] downloads every image of the cached list again, one
    GET each in list order, whether or not it had a local path.  When it
    returns, every image has as local path the directory joined with its
    [get_filepath] name, and a file exists there. *)
Theorem save_images_saves_all (net : Net) (self self' : PyWebScraper)
    (images : list ImageContent) (path : string) (w w' : World) :
  _images self = Some images ->
  save_images net self path w = (Returns tt, self', w') ->
  _images self'
  = Some ((fun i => {| url := url i; alt_text := alt_text i;
                       local_path := Some (OsPath.join path (get_filepath i)) |})
            <$> images)
  /\ trace w' = trace w ++ (EvGet <$> (url <$> images))
  /\ Forall (fun i => is_Some (files w' !! OsPath.join path (get_filepath i))) images.
Proof.
  intros Hc. unfold save_images, get_images. rewrite Hc. unfold ret.
  destruct (save_loop net path images w) as [[r images'] w2] eqn:El.
  intros [= -> <- <-].
  apply save_loop_returns in El as (-> & Ht & _ & Hall).
  repeat split; auto.
Qed.

Lemma save_images_saves_all_witness :
  let run := save_images net_all_ok page_saved "elsewhere" empty_world in
  _images (snd (fst run))
  = Some ((fun i => {| url := url i; alt_text := alt_text i;
                       local_path := Some (OsPath.join "elsewhere" (get_filepath i)) |})
            <$> [ {| url := "https://x.com/a/b.png?s=1"; alt_text := "A";
                     local_path := Some "out/images/a/b.png" |} ])
  /\ trace (snd run)
     = trace empty_world
       ++ (EvGet <$> (url <$> [ {| url := "https://x.com/a/b.png?s=1"; alt_text := "A";
                                   local_path := Some "out/images/a/b.png" |} ]))
  /\ Forall (fun i => is_Some (files (snd run) !! OsPath.join "elsewhere" (get_filepath i)))
       [ {| url := "https://x.com/a/b.png?s=1"; alt_text := "A";
            local_path := Some "out/images/a/b.png" |} ].
Proof.
  intros run.
  apply (save_images_saves_all net_all_ok page_saved (snd (fst run)) _ "elsewhere"
           empty_world (snd run)).
  - reflexivity.
  - vm_compute. reflexivity.
Defined.

(** ** Further properties: clearing the output directory *)

Lemma startswith_length (p k : string) :
  PyStr.startswith p k = true -> String.length p <= String.length k.
Proof.
  revert k. induction p as [|x p IH]; intros k; [cbn; lia |].
  destruct k as [|y k]; [discriminate |]. cbn [PyStr.startswith String.length].
  destruct (Ascii.eqb x y); [| discriminate]. intros H. apply IH in H. lia.
Qed.

Lemma startswith_app_l (a b k : string) :
  PyStr.startswith (a +:+ b) k = true -> PyStr.startswith a k = true.
Proof.
  revert k. induction a as [|x a IH]; intros k; [reflexivity |].
  rewrite string_app_cons. destruct k as [|y k]; [discriminate |].
  cbn [PyStr.startswith]. destruct (Ascii.eqb x y); [apply IH | discriminate].
Qed.

Lemma startswith_trans (a b k : string) :
  PyStr.startswith a b = true -> PyStr.startswith b k = true ->
  PyStr.startswith a k = true.
Proof.
  revert b k. induction a as [|x a IH]; intros b k; [reflexivity |].
  destruct b as [|y b]; [discriminate |]. destruct k as [|z k]; [discriminate |].
  cbn [PyStr.startswith].
  destruct (Ascii.eqb_spec x y) as [-> |]; [| discriminate].
  destruct (Ascii.eqb y z); [apply IH | discriminate].
Qed.

Lemma join_prefix (path name : string) :
  PyStr.occurs "/" name = false ->
  OsPath.join path name = OsPath.join path "" +:+ name.
Proof.
  intros Hn. unfold OsPath.join. rewrite startswith_sep_free by exact Hn.
  cbn [PyStr.startswith].
  destruct (negb (PyStr.truthy path) || PyStr.endswith_char "/" path).
  - now rewrite string_app_nil_r.
  - rewrite string_app_nil_r. now rewrite string_app_assoc.
Qed.

Lemma join_prefix_length (path : string) :
  String.length path <= String.length (OsPath.join path "").
Proof.
  unfold OsPath.join. cbn [PyStr.startswith].
  destruct (_ || _); rewrite !string_length_app; lia.
Qed.

Lemma at_or_below_refl (p : string) : at_or_below p p = true.
Proof. unfold at_or_below. now rewrite String.eqb_refl. Qed.

Lemma at_or_below_trans (a b c : string) :
  at_or_below a b = true -> at_or_below b c = true -> at_or_below a c = true.
Proof.
  unfold at_or_below. intros Hab Hbc.
  apply orb_true_iff in Hab as [Hab | Hab]; apply orb_true_iff in Hbc as [Hbc | Hbc].
  - apply String.eqb_eq in Hab, Hbc. subst. now rewrite String.eqb_refl.
  - apply String.eqb_eq in Hab. subst. rewrite Hbc. apply orb_true_r.
  - apply String.eqb_eq in Hbc. subst. rewrite Hab. apply orb_true_r.
  - apply orb_true_iff. right.
    apply startswith_trans with (b := b +:+ "/"); [| exact Hbc].
    clear Hbc. revert b Hab. generalize (a +:+ "/") as p.
    induction p as [|x p IH]; intros b H; [reflexivity |].
    destruct b as [|y b]; [discriminate |]. rewrite string_app_cons.
    cbn [PyStr.startswith] in *. destruct (Ascii.eqb x y); [now apply IH | discriminate].
Qed.

(** Whatever lies at or below an entry of the directory is strictly inside
    it. *)
Lemma at_or_below_inside (prefix name k : string) :
  PyStr.truthy name = true ->
  at_or_below (prefix +:+ name) k = true -> strictly_inside prefix k = true.
Proof.
  intros Hn H. unfold strictly_inside. apply andb_true_iff.
  assert (Hlen : String.length (prefix +:+ name) > String.length prefix).
  { rewrite string_length_app. destruct name; [discriminate | cbn; lia]. }
  unfold at_or_below in H. apply orb_true_iff in H as [H | H].
  - apply String.eqb_eq in H. subst k. split; [apply startswith_app |].
    apply Nat.ltb_lt. lia.
  - split.
    + apply startswith_app_l with (b := name +:+ "/").
      now rewrite <- string_app_assoc.
    + apply Nat.ltb_lt. apply startswith_length in H.
      rewrite string_length_app in H. lia.
Qed.

Lemma only_removed_inside_refl (prefix : string) (w : World) :
  only_removed_inside prefix w w.
Proof. repeat split; auto; contradiction. Qed.

Lemma only_removed_inside_trans (prefix : string) (w1 w2 w3 : World) :
  only_removed_inside prefix w1 w2 -> only_removed_inside prefix w2 w3 ->
  only_removed_inside prefix w1 w3.
Proof.
  intros (Ht & Hf & Hd & Ho & Hb) (Ht' & Hf' & Hd' & Ho' & Hb').
  repeat split.
  - congruence.
  - auto.
  - auto.
  - destruct (Ho k H), (Ho' k H). congruence.
  - intros Hk. destruct (Ho k H), (Ho' k H). auto.
  - destruct (decide (k ∈ dirs w2)) as [Hin | Hout].
    + now destruct (Hb' k Hin H0 k' H1).
    + destruct (Hb k H Hout k' H1) as [Hnone _].
      destruct (files w3 !! k') eqn:E; [| reflexivity].
      apply Hf' in E. congruence.
  - destruct (decide (k ∈ dirs w2)) as [Hin | Hout].
    + now destruct (Hb' k Hin H0 k' H1).
    + destruct (Hb k H Hout k' H1) as [_ Hno]. intros Hin3. apply Hno. auto.
Qed.

(** One entry of the directory goes: a file is unlinked, a directory is
    removed with all below it. *)
Lemma clear_entry_step (path name : string) (w : World) :
  PyStr.truthy name = true -> PyStr.occurs "/" name = false ->
  exists w1,
    clear_entry path name w = (Returns tt, w1)
    /\ only_removed_inside (OsPath.join path "") w w1
    /\ files w1 !! OsPath.join path name = None
    /\ (is_file w (OsPath.join path name) = false ->
        OsPath.join path name ∉ dirs w1).
Proof.
  intros Hn Hs. unfold clear_entry.
  pose proof (join_prefix path name Hs) as Hj.
  set (fp := OsPath.join path name) in *.
  assert (Hin : forall k, at_or_below fp k = true ->
                          strictly_inside (OsPath.join path "") k = true).
  { intros k Hk. rewrite Hj in Hk. now apply at_or_below_inside in Hk. }
  destruct (is_file w fp) eqn:Ef; [| destruct (is_dir w fp) eqn:Ed].
  - eexists. split; [reflexivity |]. unfold only_removed_inside.
    cbn [files dirs trace]. repeat split; auto; try contradiction.
    + intros k v Hk. apply lookup_delete_Some in Hk. tauto.
    + apply lookup_delete_ne. intros <-.
      rewrite (Hin fp (at_or_below_refl fp)) in H. discriminate.
    + apply lookup_delete_eq.
    + discriminate.
  - eexists. split; [reflexivity |]. unfold only_removed_inside.
    cbn [files dirs trace]. repeat split.
    + intros k v Hk. apply map_lookup_filter_Some in Hk. tauto.
    + intros k Hk. apply elem_of_filter in Hk. tauto.
    + destruct (files w !! k) eqn:E.
      * apply map_lookup_filter_Some. split; [exact E |]. cbn.
        destruct (at_or_below fp k) eqn:Ea; [| reflexivity].
        apply Hin in Ea. congruence.
      * apply map_lookup_filter_None. now left.
    + intros Hk. apply elem_of_filter. split; [| exact Hk].
      destruct (at_or_below fp k) eqn:Ea; [| reflexivity].
      apply Hin in Ea. congruence.
    + apply map_lookup_filter_None. right. intros v _. cbn.
      assert (Hak : at_or_below fp k = true).
      { destruct (at_or_below fp k) eqn:Ea; [reflexivity |].
        exfalso. apply H0. apply elem_of_filter. auto. }
      rewrite (at_or_below_trans fp k k' Hak H1). discriminate.
    + intros Hk'. apply elem_of_filter in Hk' as [Hk' _].
      assert (Hak : at_or_below fp k = true).
      { destruct (at_or_below fp k) eqn:Ea; [reflexivity |].
        exfalso. apply H0. apply elem_of_filter. auto. }
      rewrite (at_or_below_trans fp k k' Hak H1) in Hk'. discriminate.
    + apply map_lookup_filter_None. right. intros v _. cbn.
      rewrite at_or_below_refl. discriminate.
    + intros _ Hk. apply elem_of_filter in Hk as [Hk _].
      rewrite at_or_below_refl in Hk. discriminate.
  - exists w. split; [reflexivity |]. split; [apply only_removed_inside_refl |].
    split.
    + unfold is_file in Ef. apply bool_decide_eq_false in Ef.
      destruct (files w !! fp) eqn:E; [| reflexivity]. exfalso. apply Ef. eauto.
    + intros _. unfold is_dir in Ed. now apply bool_decide_eq_false in Ed.
Qed.

Lemma clear_loop (path : string) (names : list string) (w : World) :
  Forall (fun n => PyStr.truthy n = true /\ PyStr.occurs "/" n = false) names ->
  exists w',
    forM_ (clear_entry path) names w = (Returns tt, w')
    /\ only_removed_inside (OsPath.join path "") w w'
    /\ forall n, n ∈ names ->
                 files w' !! OsPath.join path n = None
                 /\ (is_file w (OsPath.join path n) = false ->
                     OsPath.join path n ∉ dirs w').
Proof.
  intros H. revert w. induction H as [|n0 names [Hn Hs] _ IH]; intros w.
  - exists w. split; [reflexivity |]. split; [apply only_removed_inside_refl |].
    intros n Hin. now apply elem_of_nil in Hin.
  - destruct (clear_entry_step path n0 w Hn Hs) as (w1 & Hstep & HR1 & Hf1 & Hd1).
    destruct (IH w1) as (w' & Hloop & HR' & Hall).
    exists w'. split; [| split].
    + cbn [forM_]. unfold bind. now rewrite Hstep.
    + eapply only_removed_inside_trans; eassumption.
    + destruct HR' as (_ & Hsub & Hdsub & _). destruct HR1 as (_ & Hsub1 & _).
      intros n Hin. apply elem_of_cons in Hin as [-> | Hin].
      * split.
        -- destruct (files w' !! OsPath.join path n0) eqn:E; [| reflexivity].
           apply Hsub in E. congruence.
        -- intros Hnf Hin'. apply (Hd1 Hnf). auto.
      * destruct (Hall n Hin) as [Hnone Hnd]. split; [exact Hnone |].
        intros Hnf. apply Hnd. unfold is_file in *.
        apply bool_decide_eq_false in Hnf. apply bool_decide_eq_false.
        intros [v Hv]. apply Hnf. apply Hsub1 in Hv. eauto.
Qed.

Lemma entry_name_good (prefix k name : string) :
  entry_name prefix k = Some name ->
  PyStr.truthy name = true /\ PyStr.occurs "/" name = false.
Proof.
  unfold entry_name. destruct (PyStr.startswith prefix k); [| discriminate].
  destruct (PyStr.truthy _) eqn:Et; [| discriminate].
  destruct (PyStr.occurs "/" _) eqn:Eo; [discriminate |].
  cbn. intros [= <-]. auto.
Qed.

Lemma entry_name_join (path name : string) :
  PyStr.truthy name = true -> PyStr.occurs "/" name = false ->
  entry_name (OsPath.join path "") (OsPath.join path name) = Some name.
Proof.
  intros Hn Hs. rewrite (join_prefix path name Hs). unfold entry_name.
  rewrite startswith_app, substring_after, string_length_app.
  replace (String.length (OsPath.join path "") + String.length name
           - String.length (OsPath.join path "")) with (String.length name) by lia.
  rewrite substring_all, Hn, Hs. reflexivity.
Qed.

(** The two ways [clear_directory_content] can end. *)
Lemma clear_directory_content_cases (path : string) (w : World) :
  ((PyStr.truthy path && is_dir w path) = false ->
   clear_directory_content path w = (Raises OSError, w))
  /\ ((PyStr.truthy path && is_dir w path) = true ->
      exists w',
        clear_directory_content path w = (Returns tt, w')
        /\ only_removed_inside (OsPath.join path "") w w'
        /\ path ∈ dirs w'
        /\ forall name,
            PyStr.truthy name = true -> PyStr.occurs "/" name = false ->
            files w' !! OsPath.join path name = None
            /\ ((forall k, is_file w k = true -> is_dir w k = false) ->
                (OsPath.join path name ∉ dirs w')
                /\ (OsPath.join path name ∈ dirs w ->
                    forall k, at_or_below (OsPath.join path name) k = true ->
                              files w' !! k = None /\ k ∉ dirs w'))).
Proof.
  unfold clear_directory_content, bind, listdir. split; intros Hdir; rewrite Hdir.
  { reflexivity. }
  set (names := omap (entry_name (OsPath.join path ""))
                  (elements (dom (files w) ∪ dirs w))).
  destruct (clear_loop path names w) as (w' & Hloop & HR & Hall).
  { apply Forall_forall. intros n Hin.
    apply list_elem_of_omap in Hin as (k & _ & Hk). now apply entry_name_good in Hk. }
  exists w'. split; [exact Hloop |]. split; [exact HR |].
  pose proof HR as (_ & Hsub & Hdsub & Hout & Hbelow).
  apply andb_true_iff in Hdir as [_ Hd].
  unfold is_dir in Hd. apply bool_decide_eq_true in Hd.
  split.
  { apply (Hout path); [| exact Hd]. unfold strictly_inside.
    apply andb_false_iff. right. apply Nat.ltb_ge. apply join_prefix_length. }
  intros name Hn Hs.
  assert (Hlisted : is_Some (files w !! OsPath.join path name)
                    \/ OsPath.join path name ∈ dirs w -> name ∈ names).
  { intros Hk. apply list_elem_of_omap. exists (OsPath.join path name). split.
    - apply elem_of_elements. apply elem_of_union.
      destruct Hk as [Hk | Hk]; [left; now apply elem_of_dom | now right].
    - now apply entry_name_join. }
  assert (Hnone : files w' !! OsPath.join path name = None).
  { destruct (files w !! OsPath.join path name) eqn:E.
    - apply Hall. apply Hlisted. left. eauto.
    - destruct (files w' !! OsPath.join path name) eqn:E'; [| reflexivity].
      apply Hsub in E'. congruence. }
  split; [exact Hnone |]. intros Hdisj.
  assert (Hgone : OsPath.join path name ∉ dirs w').
  { intros Hin'. pose proof (Hdsub _ Hin') as Hin0.
    destruct (Hall name (Hlisted (or_intror Hin0))) as [_ Hnd].
    apply Hnd; [| exact Hin'].
    destruct (is_file w (OsPath.join path name)) eqn:Ef; [| reflexivity].
    apply Hdisj in Ef. unfold is_dir in Ef. apply bool_decide_eq_false in Ef.
    contradiction. }
  split; [exact Hgone |]. intros Hin0 k Hk. now apply (Hbelow _ Hin0 Hgone).
Qed.

(** X20: [clear_directory_content] raises [OSError] and changes nothing
    when [path] is empty or not a directory.  Otherwise it returns, having
    sent no request and only removed entries strictly inside the directory:
    the directory itself and everything outside it are as before.  No file
    directly in it is left; and when no path was both a file and a
    directory, no entry directly in it is left at all, and nothing at or
    below any of its subdirectories. *)
Theorem clear_directory_content_effects (path : string) (w : World) :
  ((PyStr.truthy path && is_dir w path) = false ->
   clear_directory_content path w = (Raises OSError, w))
  /\ ((PyStr.truthy path && is_dir w path) = true ->
      exists w',
        clear_directory_content path w = (Returns tt, w')
        /\ only_removed_inside (OsPath.join path "") w w'
        /\ path ∈ dirs w'
        /\ forall name,
            PyStr.truthy name = true -> PyStr.occurs "/" name = false ->
            files w' !! OsPath.join path name = None
            /\ ((forall k, is_file w k = true -> is_dir w k = false) ->
                (OsPath.join path name ∉ dirs w')
                /\ (OsPath.join path name ∈ dirs w ->
                    forall k, at_or_below (OsPath.join path name) k = true ->
                              files w' !! k = None /\ k ∉ dirs w'))).
Proof. exact (clear_directory_content_cases path w). Qed.

Lemma clear_directory_content_effects_witness :
  clear_directory_content "out" empty_world = (Raises OSError, empty_world).
Proof.
  apply (proj1 (clear_directory_content_effects "out" empty_world)).
  reflexivity.
Defined.

(** A directory with a stale page and a stale image tree is emptied; the
    directory itself and what lies beside it stay. *)
Example clear_directory_content_stale :
  let w := {| files := {[ "out/index.md" := "old"; "out/images/a.png" := "x";
                          "other/keep.txt" := "k" ]};
              dirs := {[ "out"; "out/images"; "other" ]}; trace := [] |} in
  let w' := snd (clear_directory_content "out" w) in
  fst (clear_directory_content "out" w) = Returns tt
  /\ map_to_list (files w') = [("other/keep.txt", "k")]
  /\ elements (dirs w') = ["out"; "other"].
Proof. vm_compute. repeat split; reflexivity. Qed.

(** X21: when [save_content_html] or [save_markdown] returns after having
    been asked to clear the output directory (images not downloaded), the
    page is the only file directly in that directory: the target holds the
    rendered region and every other name directly in it is free.  No request
    was sent. *)
Theorem save_page_after_clearing (net : Net) (decode : node -> string)
    (markdownify : string -> string -> string) (self self' : PyWebScraper)
    (path filename images_dir_name : string) (flatten_images : bool) (w w' : World) :
  (save_content_html net decode self path filename false images_dir_name
     true flatten_images w = (Returns tt, self', w') ->
   files w' !! OsPath.join path filename
   = Some (py_str decode (snd (extract_content self)))
   /\ trace w' = trace w
   /\ forall name, PyStr.truthy name = true -> PyStr.occurs "/" name = false ->
                   OsPath.join path name <> OsPath.join path filename ->
                   files w' !! OsPath.join path name = None)
  /\ (save_markdown net decode markdownify self path filename false images_dir_name
        true flatten_images w = (Returns tt, self', w') ->
      files w' !! OsPath.join path filename
      = Some (markdownify (py_str decode (snd (extract_content self))) "ATX")
      /\ trace w' = trace w
      /\ forall name, PyStr.truthy name = true -> PyStr.occurs "/" name = false ->
                      OsPath.join path name <> OsPath.join path filename ->
                      files w' !! OsPath.join path name = None).
Proof.
  assert (Hcore : forall content,
             match clear_directory_content path w with
             | (Raises e, w1) => (Raises e, self, w1)
             | (Returns _, w1) =>
                 save_rendered net (set_content self (snd (extract_content self)), content)
                   path filename false images_dir_name flatten_images w1
             end = (Returns tt, self', w') ->
             files w' !! OsPath.join path filename = Some content
             /\ trace w' = trace w
             /\ forall name, PyStr.truthy name = true -> PyStr.occurs "/" name = false ->
                             OsPath.join path name <> OsPath.join path filename ->
                             files w' !! OsPath.join path name = None).
  { intros content H.
    destruct (clear_directory_content path w) as [[r|e] w1] eqn:Ec; [| discriminate].
    destruct (clear_directory_content_cases path w) as [Hbad Hgood].
    destruct (PyStr.truthy path && is_dir w path) eqn:Ed.
    2:{ rewrite (Hbad eq_refl) in Ec. discriminate. }
    destruct (Hgood eq_refl) as (w1' & Hc & (Ht1 & _) & _ & Hnames).
    rewrite Hc in Ec. inversion Ec; subst w1'.
    destruct (save_rendered_offline net (set_content self (snd (extract_content self)))
                content path filename images_dir_name flatten_images w1)
      as (r' & w2 & Hs & Ht & _ & Hother & Hres).
    rewrite Hs in H. inversion H; subst.
    destruct Hres as [[_ Hfile] | [Hr _]]; [| discriminate].
    split; [exact Hfile |]. split; [congruence |].
    intros name Hn Hsl Hne. rewrite (Hother _ Hne). now apply Hnames. }
  split; intros H.
  - apply Hcore. exact H.
  - apply Hcore. exact H.
Qed.

Lemma save_page_after_clearing_witness :
  let w := {| files := {[ "out/stale.md" := "old" ]}; dirs := {[ "out" ]};
              trace := [] |} in
  let run := save_content_html net_all_ok (fun _ => "<article>story</article>")
               page_with_article "out" "index.html" false "images" true false w in
  files (snd run) !! OsPath.join "out" "index.html"
  = Some (py_str (fun _ => "<article>story</article>")
            (snd (extract_content page_with_article)))
  /\ trace (snd run) = trace w
  /\ forall name, PyStr.truthy name = true -> PyStr.occurs "/" name = false ->
                  OsPath.join "out" name <> OsPath.join "out" "index.html" ->
                  files (snd run) !! OsPath.join "out" name = None.
Proof.
  intros w run.
  apply (proj1 (save_page_after_clearing net_all_ok
                  (fun _ => "<article>story</article>") (fun html _ => html)
                  page_with_article (snd (fst run)) "out" "index.html" "images"
                  false w (snd run))).
  vm_compute. reflexivity.
Defined.
